(** * Stock-Analyst: the data-acquisition and caching service layer

    A shallow embedding of [src/config/modelConfig.ts],
    [src/services/lstmModelService.ts] and [src/services/mockStockService.ts].

    Conventions of the embedding.
    - A TypeScript [number] is an exact rational ([Q]); rounding, NaN and the
      infinities of IEEE doubles are left out.  [Math.floor] is [Qfloor].
    - An interface is a record, a string-literal union an inductive type.
    - A calendar date is the number of the day since the epoch and an
      ISO-8601 instant is the number of milliseconds since the epoch; their
      textual renderings ([toISOString], [toLocaleDateString]) are left out.
    - [async] code is a state-and-exception monad over the service state:
      a rejected promise is the [Rejected] completion, [try]/[catch] is
      [try_catch].  The three fetches under [Promise.all] run in argument
      order.
    - [Math.random], the clock and the backend are oracles held in [Env].
      A response body that parses is taken at the TypeScript type the source
      assigns to it.
    - [console.log] and [console.error] have no effect on the model. *)

From Stdlib Require Import QArith Qround Qminmax Lqa ZArith List String Ascii DecimalString Lia Sorted.
From stdpp Require Import gmap strings list fin_maps.

Local Open Scope Q_scope.

(** ** Numbers *)

Definition number := Q.

(** [x < y], [x <= y], [x >= y], [x > y] of the source, as booleans. *)
Definition num_lt (x y : number) : bool := negb (Qle_bool y x).
Definition num_le (x y : number) : bool := Qle_bool x y.
Definition num_ge (x y : number) : bool := Qle_bool y x.
Definition num_gt (x y : number) : bool := negb (Qle_bool x y).

Definition Math_floor (x : number) : number := inject_Z (Qfloor x).
Definition Math_max (x y : number) : number := if num_ge x y then x else y.
Definition Math_min (x y : number) : number := if num_le x y then x else y.

(** The decimal rendering of an integral number inside a template string. *)
Definition show_int (z : Z) : string := NilZero.string_of_int (Z.to_int z).

(** ** modelConfig.ts *)

Record LstmParams := {
  sequenceLength : number;
  hiddenUnits : number;
  layers : number;
  dropout : number;
  recurrentDropout : number }.

Record EarlyStopping := { patience : number; minDelta : number }.

Record TrainingParams := {
  epochs : number;
  batchSize : number;
  learningRate : number;
  validationSplit : number;
  earlyStopping : EarlyStopping }.

Inductive ScalingMethod := minmax | standard | robust.

Record DataParams := {
  features : list string;
  targetColumn : string;
  scalingMethod : ScalingMethod;
  testSize : number;
  predictionDays : number }.

Record SentimentThreshold := { thr_positive : number; thr_negative : number }.

Inductive WeightingStrategy := linear | exponential | sigmoid.

Record FinbertParams := {
  model : string;
  maxLength : number;
  sentimentThreshold : SentimentThreshold;
  weightingStrategy : WeightingStrategy }.

Record NewsParams := {
  maxArticles : number;
  timeWindow : number;
  sources : list string;
  relevanceThreshold : number }.

Record ApiParams := {
  yfinanceTimeout : number;
  newsApiTimeout : number;
  retryAttempts : number;
  cacheTimeout : number }.

(** [ModelConfig] read as a value: every nested object followed. *)
Record ModelConfig := {
  lstm : LstmParams;
  training : TrainingParams;
  data : DataParams;
  finbert : FinbertParams;
  news : NewsParams;
  api : ApiParams }.

(** The object literal of [defaultModelConfig]. *)
Definition defaultModelConfig_literal : ModelConfig := {|
  lstm := {| sequenceLength := 60; hiddenUnits := 128; layers := 2;
             dropout := 0.2; recurrentDropout := 0.2 |};
  training := {| epochs := 100; batchSize := 32; learningRate := 0.001;
                 validationSplit := 0.2;
                 earlyStopping := {| patience := 10; minDelta := 0.001 |} |};
  data := {| features := ["close"; "volume"; "high"; "low"; "open";
                          "sentiment_score"; "news_volume"; "volatility";
                          "rsi"; "macd"; "bollinger_upper"; "bollinger_lower"]%string;
             targetColumn := "close"; scalingMethod := minmax;
             testSize := 0.2; predictionDays := 3 |};
  finbert := {| model := "ProsusAI/finbert"; maxLength := 512;
                sentimentThreshold := {| thr_positive := 0.3; thr_negative := -0.3 |};
                weightingStrategy := exponential |};
  news := {| maxArticles := 50; timeWindow := 72;
             sources := ["reuters"; "bloomberg"; "cnbc"; "marketwatch";
                         "financial-times"; "wsj"]%string;
             relevanceThreshold := 0.5 |};
  api := {| yfinanceTimeout := 30000; newsApiTimeout := 15000;
            retryAttempts := 3; cacheTimeout := 300000 |} |}.

(** *** The object store

    JavaScript objects are references.  A [ModelConfig] object holds six
    references to its nested objects; the spread [{ ...defaultModelConfig }]
    copies those references, not the objects behind them.  The store is a
    list of cells addressed by position; allocation appends. *)

Definition loc := nat.

Record ConfigRefs := {
  r_lstm : loc; r_training : loc; r_data : loc;
  r_finbert : loc; r_news : loc; r_api : loc }.

Inductive Obj :=
| OLstm (o : LstmParams)
| OTraining (o : TrainingParams)
| OData (o : DataParams)
| OFinbert (o : FinbertParams)
| ONews (o : NewsParams)
| OApi (o : ApiParams)
| OConfig (o : ConfigRefs).

Abbreviation Heap := (list Obj).

Definition alloc (o : Obj) (h : Heap) : loc * Heap := (length h, h ++ [o]).

(** Evaluating a [ModelConfig] object literal: the nested literals first, in
    source order, then the object that refers to them. *)
Definition alloc_config (c : ModelConfig) (h : Heap) : loc * Heap :=
  let '(l1, h) := alloc (OLstm (lstm c)) h in
  let '(l2, h) := alloc (OTraining (training c)) h in
  let '(l3, h) := alloc (OData (data c)) h in
  let '(l4, h) := alloc (OFinbert (finbert c)) h in
  let '(l5, h) := alloc (ONews (news c)) h in
  let '(l6, h) := alloc (OApi (api c)) h in
  alloc (OConfig {| r_lstm := l1; r_training := l2; r_data := l3;
                    r_finbert := l4; r_news := l5; r_api := l6 |}) h.

(** The store after the module is loaded, and the exported constant. *)
Definition defaultModelConfig : loc := fst (alloc_config defaultModelConfig_literal []).
Definition init_heap : Heap := snd (alloc_config defaultModelConfig_literal []).

Definition get_refs (h : Heap) (l : loc) : option ConfigRefs :=
  match h !! l with Some (OConfig r) => Some r | _ => None end.
Definition get_lstm (h : Heap) (l : loc) : option LstmParams :=
  match h !! l with Some (OLstm o) => Some o | _ => None end.
Definition get_training (h : Heap) (l : loc) : option TrainingParams :=
  match h !! l with Some (OTraining o) => Some o | _ => None end.
Definition get_data (h : Heap) (l : loc) : option DataParams :=
  match h !! l with Some (OData o) => Some o | _ => None end.
Definition get_finbert (h : Heap) (l : loc) : option FinbertParams :=
  match h !! l with Some (OFinbert o) => Some o | _ => None end.
Definition get_news (h : Heap) (l : loc) : option NewsParams :=
  match h !! l with Some (ONews o) => Some o | _ => None end.
Definition get_api (h : Heap) (l : loc) : option ApiParams :=
  match h !! l with Some (OApi o) => Some o | _ => None end.

(** Reading a whole configuration through its references. *)
Definition read_config (h : Heap) (l : loc) : option ModelConfig :=
  r ← get_refs h l;
  a ← get_lstm h (r_lstm r);
  b ← get_training h (r_training r);
  c ← get_data h (r_data r);
  d ← get_finbert h (r_finbert r);
  e ← get_news h (r_news r);
  f ← get_api h (r_api r);
  Some {| lstm := a; training := b; data := c; finbert := d; news := e; api := f |}.

(** Assignments [config.training.epochs = v] and the like: follow the
    reference held by [config], update the object behind it in place. *)
Definition set_epochs (v : number) (t : TrainingParams) : TrainingParams :=
  {| epochs := v; batchSize := batchSize t; learningRate := learningRate t;
     validationSplit := validationSplit t; earlyStopping := earlyStopping t |}.
Definition set_sequenceLength (v : number) (o : LstmParams) : LstmParams :=
  {| sequenceLength := v; hiddenUnits := hiddenUnits o; layers := layers o;
     dropout := dropout o; recurrentDropout := recurrentDropout o |}.
Definition set_maxArticles (v : number) (o : NewsParams) : NewsParams :=
  {| maxArticles := v; timeWindow := timeWindow o; sources := sources o;
     relevanceThreshold := relevanceThreshold o |}.
Definition set_cacheTimeout (v : number) (o : ApiParams) : ApiParams :=
  {| yfinanceTimeout := yfinanceTimeout o; newsApiTimeout := newsApiTimeout o;
     retryAttempts := retryAttempts o; cacheTimeout := v |}.

Definition assign_training_epochs (config : loc) (v : number) (h : Heap) : option Heap :=
  r ← get_refs h config;
  t ← get_training h (r_training r);
  Some (<[r_training r := OTraining (set_epochs v t)]> h).
Definition assign_lstm_sequenceLength (config : loc) (v : number) (h : Heap) : option Heap :=
  r ← get_refs h config;
  o ← get_lstm h (r_lstm r);
  Some (<[r_lstm r := OLstm (set_sequenceLength v o)]> h).
Definition assign_news_maxArticles (config : loc) (v : number) (h : Heap) : option Heap :=
  r ← get_refs h config;
  o ← get_news h (r_news r);
  Some (<[r_news r := ONews (set_maxArticles v o)]> h).
Definition assign_api_cacheTimeout (config : loc) (v : number) (h : Heap) : option Heap :=
  r ← get_refs h config;
  o ← get_api h (r_api r);
  Some (<[r_api r := OApi (set_cacheTimeout v o)]> h).

Inductive Environment := development | production | testing.

(** [getModelConfig]: the result is the new object and the store after the
    call; [None] stands for the TypeError of reading through a missing
    object. *)
Definition getModelConfig (environment : Environment) (h : Heap) : option (loc * Heap) :=
  r ← get_refs h defaultModelConfig;
  let '(config, h) := alloc (OConfig r) h in
  h ← match environment with
      | development =>
          h ← assign_training_epochs config 10 h;
          h ← assign_lstm_sequenceLength config 30 h;
          assign_news_maxArticles config 10 h
      | testing =>
          h ← assign_training_epochs config 5 h;
          h ← assign_lstm_sequenceLength config 10 h;
          h ← assign_news_maxArticles config 5 h;
          assign_api_cacheTimeout config 1000 h
      | production => Some h
      end;
  Some (config, h).

(** [validateModelConfig]: each [if] pushes its message when its condition
    holds. *)
Definition push_if (cond : bool) (msg : string) (errors : list string) : list string :=
  if cond then errors ++ [msg] else errors.

Definition validateModelConfig (config : ModelConfig) : list string :=
  let errors := [] in
  let errors := push_if (num_lt (sequenceLength (lstm config)) 1)
                  "LSTM sequence length must be at least 1" errors in
  let errors := push_if (num_lt (hiddenUnits (lstm config)) 1)
                  "LSTM hidden units must be at least 1" errors in
  let errors := push_if (num_lt (layers (lstm config)) 1)
                  "LSTM layers must be at least 1" errors in
  let errors := push_if (num_lt (dropout (lstm config)) 0 || num_ge (dropout (lstm config)) 1)
                  "LSTM dropout must be between 0 and 1" errors in
  let errors := push_if (num_lt (epochs (training config)) 1)
                  "Training epochs must be at least 1" errors in
  let errors := push_if (num_lt (batchSize (training config)) 1)
                  "Training batch size must be at least 1" errors in
  let errors := push_if (num_le (learningRate (training config)) 0)
                  "Learning rate must be positive" errors in
  let errors := push_if (num_lt (validationSplit (training config)) 0
                         || num_ge (validationSplit (training config)) 1)
                  "Validation split must be between 0 and 1" errors in
  let errors := push_if (Nat.eqb (length (features (data config))) 0)
                  "At least one feature must be specified" errors in
  let errors := push_if (num_lt (testSize (data config)) 0 || num_ge (testSize (data config)) 1)
                  "Test size must be between 0 and 1" errors in
  let errors := push_if (num_lt (predictionDays (data config)) 1)
                  "Prediction days must be at least 1" errors in
  errors.

(** ** lstmModelService.ts: the data model *)

Record LSTMModelConfig := {
  mc_sequenceLength : number;
  mc_features : list string;
  mc_epochs : number;
  mc_batchSize : number;
  mc_learningRate : number }.

Record StockData := {
  sd_symbol : string;
  sd_name : string;
  sd_currentPrice : number;
  sd_change : number;
  sd_changePercent : number;
  sd_volume : number;
  sd_marketCap : string;
  sd_high52Week : number;
  sd_low52Week : number;
  sd_peRatio : number;
  sd_dividendYield : number }.

Record HistoricalData := {
  hd_date : Z;
  hd_open : number;
  hd_high : number;
  hd_low : number;
  hd_close : number;
  hd_volume : number;
  hd_adjustedClose : number }.

Record LSTMPrediction := {
  lp_date : Z;
  lp_predictedPrice : number;
  lp_confidence : number;
  lp_upperBound : number;
  lp_lowerBound : number }.

Inductive Sentiment := positive | negative | neutral.

Record NewsData := {
  nd_id : string;
  nd_headline : string;
  nd_summary : string;
  nd_content : string;
  nd_sentiment : Sentiment;
  nd_sentimentScore : number;
  nd_finbertScore : number;
  nd_source : string;
  nd_publishedAt : Z;
  nd_relevanceScore : number }.

Record ModelMetrics := {
  accuracy : number; mse : number; rmse : number; mae : number; r2Score : number }.

Record SentimentWeights := {
  w_positive : number;
  w_negative : number;
  w_neutral : number;
  overallSentiment : number }.

Inductive Trend := bullish | bearish | sideways.

Record ModelPredictionResult := {
  pr_symbol : string;
  pr_currentPrice : number;
  pr_historical : list HistoricalData;
  pr_predictions : list LSTMPrediction;
  pr_modelMetrics : ModelMetrics;
  pr_sentimentWeights : SentimentWeights;
  pr_trend : Trend;
  pr_confidence : number;
  pr_lastUpdated : Z }.

(** ** mockStockService.ts: the data model *)

Record StockInfo := {
  si_symbol : string;
  si_name : string;
  si_currentPrice : number;
  si_change : number;
  si_volume : number;
  si_marketCap : string }.

Record PredictionData := {
  pd_historical : list number;
  pd_predictions : list number;
  pd_dates : list Z;
  pd_trend : string;
  pd_confidence : number }.

Record NewsItem := {
  ni_id : string;
  ni_headline : string;
  ni_summary : string;
  ni_sentiment : Sentiment;
  ni_sentimentScore : number;
  ni_source : string;
  ni_publishedAt : Z }.

(** The cache holds [data: any]: one of the three payload kinds. *)
Inductive Payload :=
| PStock (d : StockInfo)
| PPredictions (d : PredictionData)
| PNews (d : list NewsItem).

Record CacheEntry := { ce_data : Payload; ce_timestamp : Z }.

(** ** The world outside the services *)

(** What the backend is asked: the JSON body of the forecast request, and
    the four requests, each standing for its method and URL under the fixed
    [baseUrl]. *)
Record PredictBody := {
  pb_historicalData : list HistoricalData;
  pb_sentimentWeights : SentimentWeights;
  pb_modelConfig : LSTMModelConfig;
  pb_predictionDays : number }.

Inductive Request :=
| GET_stock (ticker : string)
| GET_historical (ticker period : string)
| GET_news (ticker : string)
| POST_predict (ticker : string) (body : PredictBody).

(** What [/api/predict] answers when its body parses. *)
Record PredictReply := {
  rp_predictions : list LSTMPrediction;
  rp_metrics : ModelMetrics;
  rp_trend : Trend;
  rp_confidence : number }.

(** A [fetch] either rejects or yields a response with its [ok] flag, its
    [statusText], and a body for which [json()] resolves ([Some]) or rejects
    ([None]). *)
Record Response (T : Type) := {
  ok : bool;
  statusText : string;
  body : option T }.
Arguments ok {T} _.
Arguments statusText {T} _.
Arguments body {T} _.

Inductive FetchResult (T : Type) :=
| NetworkError
| Responded (r : Response T).
Arguments NetworkError {T}.
Arguments Responded {T} _.

(** One exchange with the backend: how long it took and how it ended. *)
Record Exchange (T : Type) := { elapsed : N; result : FetchResult T }.
Arguments elapsed {T} _.
Arguments result {T} _.

(** The oracles.  [rng n] is the [n]-th value [Math.random] returns; each
    endpoint answers from the number of requests made so far and the
    request. *)
Record Env := {
  rng : nat -> number;
  stock_endpoint : nat -> string -> Exchange StockData;
  historical_endpoint : nat -> string -> string -> Exchange (list HistoricalData);
  news_endpoint : nat -> string -> Exchange (list NewsData);
  predict_endpoint : nat -> string -> PredictBody -> Exchange PredictReply }.

(** [Math.random] returns a number in [0, 1). *)
Definition rng_ok (env : Env) : Prop := forall n, 0 <= rng env n /\ rng env n < 1.

(** The state the code runs on: the cache of [MockStockService], the clock,
    the number of random draws made, and the requests sent so far. *)
Record State := {
  cache : gmap string CacheEntry;
  now : Z;
  draws : nat;
  sent : list Request }.

Definition Error := string.

Inductive Completion (A : Type) :=
| Resolved (a : A)
| Rejected (e : Error).
Arguments Resolved {A} _.
Arguments Rejected {A} _.

Definition M (A : Type) : Type := State -> Completion A * State.

Definition ret {A} (a : A) : M A := fun s => (Resolved a, s).

Definition bind {A B} (m : M A) (k : A -> M B) : M B :=
  fun s => match m s with
           | (Resolved a, s') => k a s'
           | (Rejected e, s') => (Rejected e, s')
           end.

Definition throw {A} (e : Error) : M A := fun s => (Rejected e, s).

Definition try_catch {A} (m : M A) (handler : Error -> M A) : M A :=
  fun s => match m s with
           | (Resolved a, s') => (Resolved a, s')
           | (Rejected e, s') => handler e s'
           end.

(** The monad of the services, with stdpp's notation [x ← m; k]. *)
#[global] Instance M_ret : MRet M := @ret.
#[global] Instance M_bind : MBind M := fun A B k m => bind m k.

(** The three ways the code changes the state. *)
Definition drew (n : nat) (s : State) : State :=
  {| cache := cache s; now := now s; draws := n + draws s; sent := sent s |}.
Definition exchanged (req : Request) (ms : N) (s : State) : State :=
  {| cache := cache s; now := (now s + Z.of_N ms)%Z; draws := draws s;
     sent := sent s ++ [req] |}.
Definition stored (key : string) (e : CacheEntry) (s : State) : State :=
  {| cache := <[key := e]> (cache s); now := now s; draws := draws s; sent := sent s |}.

Definition Math_random (env : Env) : M number :=
  fun s => (Resolved (rng env (draws s)), drew 1 s).

Definition Date_now : M Z := fun s => (Resolved (now s), s).

(** The day a clock reading falls on. *)
Definition ms_per_day : Z := 86400000.
Definition day_of (t : Z) : Z := (t / ms_per_day)%Z.

(** [new Date()] followed by [setDate(getDate() + k)], read as a day. *)
Definition Date_today_plus (k : Z) : M Z :=
  t ← Date_now; mret (day_of t + k)%Z.

Definition cache_get (key : string) : M (option CacheEntry) :=
  fun s => (Resolved (cache s !! key), s).

Definition cache_set (key : string) (e : CacheEntry) : M unit :=
  fun s => (Resolved tt, stored key e s).

(** [await fetch(...)]: the request is recorded, the clock advances by the
    time the exchange took, and the fetch rejects or yields the response. *)
Definition fetch {T} (req : Request) (endpoint : nat -> Exchange T) : M (Response T) :=
  fun s =>
    let x := endpoint (length (sent s)) in
    let s' := exchanged req (elapsed x) s in
    match result x with
    | NetworkError => (Rejected "Network request failed", s')
    | Responded r => (Resolved r, s')
    end.

(** [await response.json()]. *)
Definition json {T} (r : Response T) : M T :=
  match body r with
  | Some d => ret d
  | None => throw "JSON Parse error"
  end.

(** [String.prototype.toUpperCase], on the ASCII letters. *)
Definition upper_ascii (c : ascii) : ascii :=
  let n := nat_of_ascii c in
  if (97 <=? n)%nat && (n <=? 122)%nat then ascii_of_nat (n - 32) else c.

Fixpoint toUpperCase (s : string) : string :=
  match s with
  | EmptyString => EmptyString
  | String c s' => String (upper_ascii c) (toUpperCase s')
  end.

(** ** lstmModelService.ts: the data provider *)

Section LSTMModelService.
Variable env : Env.

(** [this.modelConfig], set by the constructor. *)
Definition modelConfig : LSTMModelConfig := {|
  mc_sequenceLength := 60;
  mc_features := ["close"; "volume"; "high"; "low"; "sentiment_score"]%string;
  mc_epochs := 100;
  mc_batchSize := 32;
  mc_learningRate := 0.001 |}.

Definition getMockStockData (ticker : string) : M StockData :=
  r ← Math_random env;
  let basePrice := r * 200 + 50 in
  r ← Math_random env;
  let change := (r - 0.5) * 10 in
  r_volume ← Math_random env;
  r_cap ← Math_random env;
  r_pe ← Math_random env;
  r_yield ← Math_random env;
  mret {| sd_symbol := toUpperCase ticker;
          sd_name := toUpperCase ticker +:+ " Corporation";
          sd_currentPrice := basePrice;
          sd_change := change;
          sd_changePercent := (change / basePrice) * 100;
          sd_volume := Math_floor (r_volume * 100000000);
          sd_marketCap := show_int (Qfloor (r_cap * 1000)) +:+ "B";
          sd_high52Week := basePrice * 1.3;
          sd_low52Week := basePrice * 0.7;
          sd_peRatio := r_pe * 30 + 10;
          sd_dividendYield := r_yield * 5 |}.

(** The loop [for (let i = 30; i >= 0; i--)] of [getMockHistoricalData];
    [S i] iterations remain when the loop variable is [i]. *)
Fixpoint historical_loop (remaining : nat) (currentPrice : number)
    (data : list HistoricalData) : M (list HistoricalData) :=
  match remaining with
  | O => mret data
  | S i =>
      date ← Date_today_plus (- Z.of_nat i);
      r ← Math_random env;
      let variation := (r - 0.5) * 5 in
      let currentPrice := currentPrice + variation in
      r ← Math_random env;
      let open := currentPrice + (r - 0.5) * 2 in
      let close := currentPrice in
      r ← Math_random env;
      let high := Math_max open close + r * 3 in
      r ← Math_random env;
      let low := Math_min open close - r * 3 in
      r ← Math_random env;
      historical_loop i currentPrice
        (data ++ [ {| hd_date := date; hd_open := open; hd_high := high;
                      hd_low := low; hd_close := close;
                      hd_volume := Math_floor (r * 10000000);
                      hd_adjustedClose := close |} ])
  end.

Definition getMockHistoricalData (ticker : string) : M (list HistoricalData) :=
  let basePrice := 100 in
  historical_loop 31 basePrice [].

Definition hour_ms : Z := (60 * 60 * 1000)%Z.

Definition getMockNewsData (ticker : string) : M (list NewsData) :=
  t1 ← Date_now;
  t2 ← Date_now;
  t3 ← Date_now;
  mret [ {| nd_id := "1";
            nd_headline := ticker +:+ " Reports Strong Q4 Earnings, Beats Analyst Expectations";
            nd_summary := "The company delivered impressive quarterly results with revenue growth exceeding market forecasts.";
            nd_content := "Full article content would be here...";
            nd_sentiment := positive;
            nd_sentimentScore := 0.78;
            nd_finbertScore := 0.82;
            nd_source := "Financial Times";
            nd_publishedAt := (t1 - 2 * hour_ms)%Z;
            nd_relevanceScore := 0.95 |};
         {| nd_id := "2";
            nd_headline := "Market Volatility Affects " +:+ ticker +:+ " Stock Performance";
            nd_summary := "Recent market turbulence has impacted stock prices across the sector.";
            nd_content := "Full article content would be here...";
            nd_sentiment := neutral;
            nd_sentimentScore := -0.05;
            nd_finbertScore := -0.02;
            nd_source := "Reuters";
            nd_publishedAt := (t2 - 5 * hour_ms)%Z;
            nd_relevanceScore := 0.78 |};
         {| nd_id := "3";
            nd_headline := ticker +:+ " Faces Regulatory Challenges in Key Markets";
            nd_summary := "New regulatory requirements may impact operations in several international markets.";
            nd_content := "Full article content would be here...";
            nd_sentiment := negative;
            nd_sentimentScore := -0.42;
            nd_finbertScore := -0.38;
            nd_source := "Bloomberg";
            nd_publishedAt := (t3 - 8 * hour_ms)%Z;
            nd_relevanceScore := 0.85 |} ].

(** The loop [for (let i = 1; i <= 3; i++)] of [getMockPredictionResult]. *)
Fixpoint prediction_loop (remaining : nat) (i : Z) (currentPrice : number)
    (predictions : list LSTMPrediction) : M (list LSTMPrediction) :=
  match remaining with
  | O => mret predictions
  | S k =>
      date ← Date_today_plus i;
      r ← Math_random env;
      let variation := (r - 0.5) * 10 in
      let predictedPrice := currentPrice + variation in
      r ← Math_random env;
      let confidence := r * 0.3 + 0.7 in
      prediction_loop k (i + 1)%Z currentPrice
        (predictions ++ [ {| lp_date := date;
                             lp_predictedPrice := predictedPrice;
                             lp_confidence := confidence;
                             lp_upperBound := predictedPrice * 1.05;
                             lp_lowerBound := predictedPrice * 0.95 |} ])
  end.

Definition getMockPredictionResult (ticker : string) : M ModelPredictionResult :=
  let currentPrice := 150 in
  predictions ← prediction_loop 3 1%Z currentPrice [];
  historical ← getMockHistoricalData ticker;
  t ← Date_now;
  mret {| pr_symbol := ticker;
          pr_currentPrice := currentPrice;
          pr_historical := historical;
          pr_predictions := predictions;
          pr_modelMetrics := {| accuracy := 0.85; mse := 2.34; rmse := 1.53;
                                mae := 1.21; r2Score := 0.78 |};
          pr_sentimentWeights := {| w_positive := 0.4; w_negative := 0.3;
                                    w_neutral := 0.3; overallSentiment := 0.15 |};
          pr_trend := bullish;
          pr_confidence := 0.82;
          pr_lastUpdated := t |}.

Definition getStockData (ticker : string) : M StockData :=
  try_catch
    (response ← fetch (GET_stock ticker) (fun n => stock_endpoint env n ticker);
     if negb (ok response)
     then throw ("Failed to fetch stock data: " +:+ statusText response)
     else json response)
    (fun error => getMockStockData ticker).

Definition getHistoricalData (ticker : string) (period : string) : M (list HistoricalData) :=
  try_catch
    (response ← fetch (GET_historical ticker period)
                   (fun n => historical_endpoint env n ticker period);
     if negb (ok response)
     then throw ("Failed to fetch historical data: " +:+ statusText response)
     else json response)
    (fun error => getMockHistoricalData ticker).

Definition getNewsWithSentiment (ticker : string) : M (list NewsData) :=
  try_catch
    (response ← fetch (GET_news ticker) (fun n => news_endpoint env n ticker);
     if negb (ok response)
     then throw ("Failed to fetch news data: " +:+ statusText response)
     else json response)
    (fun error => getMockNewsData ticker).

(** The accumulators of the [forEach] in [calculateSentimentWeights]. *)
Record Tally := {
  positiveCount : nat;
  negativeCount : nat;
  neutralCount : nat;
  totalSentimentScore : number }.

Definition tally_step (t : Tally) (news : NewsData) : Tally :=
  let t :=
    match nd_sentiment news with
    | positive => {| positiveCount := S (positiveCount t); negativeCount := negativeCount t;
                     neutralCount := neutralCount t;
                     totalSentimentScore := totalSentimentScore t |}
    | negative => {| positiveCount := positiveCount t; negativeCount := S (negativeCount t);
                     neutralCount := neutralCount t;
                     totalSentimentScore := totalSentimentScore t |}
    | neutral => {| positiveCount := positiveCount t; negativeCount := negativeCount t;
                    neutralCount := S (neutralCount t);
                    totalSentimentScore := totalSentimentScore t |}
    end in
  {| positiveCount := positiveCount t; negativeCount := negativeCount t;
     neutralCount := neutralCount t;
     totalSentimentScore := totalSentimentScore t + nd_finbertScore news |}.

Definition of_nat (n : nat) : number := inject_Z (Z.of_nat n).

Definition calculateSentimentWeights (newsData : list NewsData) : SentimentWeights :=
  if Nat.eqb (length newsData) 0
  then {| w_positive := 0.33; w_negative := 0.33; w_neutral := 0.34; overallSentiment := 0 |}
  else
    let t := fold_left tally_step newsData
               {| positiveCount := 0; negativeCount := 0; neutralCount := 0;
                  totalSentimentScore := 0 |} in
    let total := of_nat (length newsData) in
    let overall := totalSentimentScore t / total in
    {| w_positive := of_nat (positiveCount t) / total;
       w_negative := of_nat (negativeCount t) / total;
       w_neutral := of_nat (neutralCount t) / total;
       overallSentiment := overall |}.

Definition generatePredictions (ticker : string) : M ModelPredictionResult :=
  try_catch
    (stockData ← getStockData ticker;
     historicalData ← getHistoricalData ticker "1y";
     newsData ← getNewsWithSentiment ticker;
     let sentimentWeights := calculateSentimentWeights newsData in
     let request := {| pb_historicalData := historicalData;
                       pb_sentimentWeights := sentimentWeights;
                       pb_modelConfig := modelConfig;
                       pb_predictionDays := 3 |} in
     response ← fetch (POST_predict ticker request)
                   (fun n => predict_endpoint env n ticker request);
     if negb (ok response)
     then throw ("Failed to generate predictions: " +:+ statusText response)
     else
       predictions ← json response;
       t ← Date_now;
       mret {| pr_symbol := ticker;
               pr_currentPrice := sd_currentPrice stockData;
               pr_historical := historicalData;
               pr_predictions := rp_predictions predictions;
               pr_modelMetrics := rp_metrics predictions;
               pr_sentimentWeights := sentimentWeights;
               pr_trend := rp_trend predictions;
               pr_confidence := rp_confidence predictions;
               pr_lastUpdated := t |})
    (fun error => getMockPredictionResult ticker).

End LSTMModelService.

(** ** mockStockService.ts: the orchestrator *)

(** The three methods of [lstmModelService] the orchestrator calls. *)
Record Provider := {
  p_getStockData : string -> M StockData;
  p_generatePredictions : string -> M ModelPredictionResult;
  p_getNewsWithSentiment : string -> M (list NewsData) }.

(** The exported singleton [lstmModelService]. *)
Definition lstmModelService (env : Env) : Provider := {|
  p_getStockData := getStockData env;
  p_generatePredictions := generatePredictions env;
  p_getNewsWithSentiment := getNewsWithSentiment env |}.

Section MockStockService.
Variable env : Env.
Variable lstm_service : Provider.

(** [5 * 60 * 1000] milliseconds. *)
Definition cacheTimeout_ms : Z := (5 * 60 * 1000)%Z.

(** The test [cached && Date.now() - cached.timestamp < this.cacheTimeout]
    at clock reading [t], with the payload it lets through. *)
Definition cache_hit (cached : option CacheEntry) (t : Z) : option Payload :=
  match cached with
  | Some c => if (t - ce_timestamp c <? cacheTimeout_ms)%Z then Some (ce_data c) else None
  | None => None
  end.

(** The read every operation starts with:
    [const cached = this.cache.get(cacheKey)] and the freshness test. *)
Definition cache_lookup (cacheKey : string) : M (option Payload) :=
  cached ← cache_get cacheKey;
  t ← Date_now;
  mret (cache_hit cached t).

(** The write every operation ends with:
    [this.cache.set(cacheKey, { data, timestamp: Date.now() })]. *)
Definition cache_store (cacheKey : string) (d : Payload) : M unit :=
  t ← Date_now;
  cache_set cacheKey {| ce_data := d; ce_timestamp := t |}.

Definition getFallbackStockInfo (ticker : string) : M StockInfo :=
  r ← Math_random env;
  let basePrice := r * 200 + 50 in
  r ← Math_random env;
  let change := (r - 0.5) * 10 in
  r_volume ← Math_random env;
  r_cap ← Math_random env;
  mret {| si_symbol := toUpperCase ticker;
          si_name := toUpperCase ticker +:+ " Corporation";
          si_currentPrice := basePrice;
          si_change := change;
          si_volume := Math_floor (r_volume * 100000000);
          si_marketCap := show_int (Qfloor (r_cap * 1000)) +:+ "B" |}.

(** [for (let i = 4; i >= 1; i--)] of [getFallbackPredictions]. *)
Fixpoint fallback_historical_loop (remaining : nat) (basePrice : number)
    (historical : list number) : M (list number) :=
  match remaining with
  | O => mret historical
  | S k =>
      r ← Math_random env;
      let variation := (r - 0.5) * 10 in
      fallback_historical_loop k basePrice (historical ++ [basePrice + variation])
  end.

(** [for (let i = 0; i < 3; i++)] of [getFallbackPredictions]. *)
Fixpoint fallback_predictions_loop (remaining : nat) (lastPrice : number)
    (predictions : list number) : M (list number) :=
  match remaining with
  | O => mret predictions
  | S k =>
      r ← Math_random env;
      let trendFactor := if num_gt r 0.5 then 1.02 else 0.98 in
      r ← Math_random env;
      let noise := (r - 0.5) * 5 in
      let lastPrice := lastPrice * trendFactor + noise in
      fallback_predictions_loop k lastPrice (predictions ++ [lastPrice])
  end.

(** The days [today - i] for [i] from [n - 1] down to [0]. *)
Definition days_back (today : Z) (n : nat) : list Z :=
  map (fun i => (today - Z.of_nat i)%Z) (rev (seq 0 n)).
(** The days [today + i] for [i] from [1] to [n]. *)
Definition days_ahead (today : Z) (n : nat) : list Z :=
  map (fun i => (today + Z.of_nat i)%Z) (seq 1 n).

Definition getFallbackPredictions (ticker : string) : M PredictionData :=
  let basePrice := 100 in
  historical ← fallback_historical_loop 4 basePrice [];
  (* historical holds four prices here, so its last element exists *)
  predictions ← fallback_predictions_loop 3 (List.last historical 0) [];
  today ← Date_now;
  let dates := days_back (day_of today) 7 in
  let trend := if num_gt (List.last predictions 0) (List.hd 0 predictions)
               then "Bullish" else "Bearish" in
  r ← Math_random env;
  mret {| pd_historical := historical;
          pd_predictions := predictions;
          pd_dates := dates;
          pd_trend := trend;
          pd_confidence := Math_floor (r * 20) + 75 |}.

Definition getFallbackNews (ticker : string) : M (list NewsItem) :=
  t1 ← Date_now;
  t2 ← Date_now;
  t3 ← Date_now;
  mret [ {| ni_id := "1";
            ni_headline := ticker +:+ " Reports Strong Q4 Earnings, Beats Analyst Expectations";
            ni_summary := "The company delivered impressive quarterly results with revenue growth exceeding market forecasts. Strong performance across all business segments.";
            ni_sentiment := positive;
            ni_sentimentScore := 0.78;
            ni_source := "Financial Times";
            ni_publishedAt := (t1 - 2 * hour_ms)%Z |};
         {| ni_id := "2";
            ni_headline := "Market Volatility Affects " +:+ ticker +:+ " Stock Performance";
            ni_summary := "Recent market turbulence has impacted stock prices across the sector. Analysts remain cautiously optimistic about long-term prospects.";
            ni_sentiment := neutral;
            ni_sentimentScore := -0.05;
            ni_source := "Reuters";
            ni_publishedAt := (t2 - 5 * hour_ms)%Z |};
         {| ni_id := "3";
            ni_headline := ticker +:+ " Faces Regulatory Challenges in Key Markets";
            ni_summary := "New regulatory requirements may impact operations in several international markets. Company working on compliance strategies.";
            ni_sentiment := negative;
            ni_sentimentScore := -0.42;
            ni_source := "Bloomberg";
            ni_publishedAt := (t3 - 8 * hour_ms)%Z |} ].

(** The object literal [stockInfo] of [getStockInfo]. *)
Definition stockInfo_of (stockData : StockData) : StockInfo :=
  {| si_symbol := sd_symbol stockData;
     si_name := sd_name stockData;
     si_currentPrice := sd_currentPrice stockData;
     si_change := sd_change stockData;
     si_volume := sd_volume stockData;
     si_marketCap := sd_marketCap stockData |}.

Definition getStockInfo (ticker : string) : M Payload :=
  try_catch
    (let cacheKey := "stock_" +:+ ticker in
     hit ← cache_lookup cacheKey;
     match hit with
     | Some d => mret d
     | None =>
         stockData ← p_getStockData lstm_service ticker;
         let stockInfo := stockInfo_of stockData in
         cache_store cacheKey (PStock stockInfo);;
         mret (PStock stockInfo)
     end)
    (fun error => d ← getFallbackStockInfo ticker; mret (PStock d)).

(** [a.slice(-n)]: the last [n] elements. *)
Definition slice_last {A} (n : nat) (a : list A) : list A := drop (length a - n) a.

Definition trend_label (t : Trend) : string :=
  match t with
  | bullish => "Bullish"
  | bearish => "Bearish"
  | sideways => "Sideways"
  end.

(** The object literal [predictionData] of [getPredictions], with the
    clock reading [today] its date labels start from. *)
Definition predictionData_of (modelResult : ModelPredictionResult) (today : Z)
    : PredictionData :=
  let historical := map hd_close (slice_last 4 (pr_historical modelResult)) in
  let predictions := map lp_predictedPrice (pr_predictions modelResult) in
  let dates := days_back (day_of today) 4 ++ days_ahead (day_of today) 3 in
  {| pd_historical := historical;
     pd_predictions := predictions;
     pd_dates := dates;
     pd_trend := trend_label (pr_trend modelResult);
     pd_confidence := Math_floor (pr_confidence modelResult * 100) |}.

Definition getPredictions (ticker : string) : M Payload :=
  try_catch
    (let cacheKey := "predictions_" +:+ ticker in
     hit ← cache_lookup cacheKey;
     match hit with
     | Some d => mret d
     | None =>
         modelResult ← p_generatePredictions lstm_service ticker;
         today ← Date_now;
         let predictionData := predictionData_of modelResult today in
         cache_store cacheKey (PPredictions predictionData);;
         mret (PPredictions predictionData)
     end)
    (fun error => d ← getFallbackPredictions ticker; mret (PPredictions d)).

Definition news_item (news : NewsData) : NewsItem :=
  {| ni_id := nd_id news;
     ni_headline := nd_headline news;
     ni_summary := nd_summary news;
     ni_sentiment := nd_sentiment news;
     ni_sentimentScore := nd_finbertScore news;
     ni_source := nd_source news;
     ni_publishedAt := nd_publishedAt news |}.

Definition getNews (ticker : string) : M Payload :=
  try_catch
    (let cacheKey := "news_" +:+ ticker in
     hit ← cache_lookup cacheKey;
     match hit with
     | Some d => mret d
     | None =>
         newsData ← p_getNewsWithSentiment lstm_service ticker;
         let newsItems := map news_item newsData in
         cache_store cacheKey (PNews newsItems);;
         mret (PNews newsItems)
     end)
    (fun error => d ← getFallbackNews ticker; mret (PNews d)).

Definition clearCache : M unit :=
  fun s => (Resolved tt, {| cache := ∅; now := now s; draws := draws s; sent := sent s |}).

(** [getCacheStats]: [size] and the keys (their insertion order is not kept). *)
Definition getCacheStats : M (nat * list string) :=
  fun s => (Resolved (size (cache s), elements (dom (cache s))), s).

End MockStockService.

(** The exported singleton [mockStockService], wired to [lstmModelService]. *)
Definition mock_getStockInfo (env : Env) := getStockInfo env (lstmModelService env).
Definition mock_getPredictions (env : Env) := getPredictions env (lstmModelService env).
Definition mock_getNews (env : Env) := getNews (lstmModelService env).

(** ** Sample worlds, for evaluating the services *)

Definition unreachable {T} : Exchange T := {| elapsed := 40; result := NetworkError |}.

Definition answers {T} (d : T) : Exchange T :=
  {| elapsed := 120;
     result := Responded {| ok := true; statusText := "OK"; body := Some d |} |}.

Definition refuses {T} : Exchange T :=
  {| elapsed := 15;
     result := Responded {| ok := false; statusText := "Service Unavailable";
                            body := @None T |} |}.

Definition garbled {T} : Exchange T :=
  {| elapsed := 15;
     result := Responded {| ok := true; statusText := "OK"; body := @None T |} |}.

(** A backend that cannot be reached, with [Math.random] stuck at one half. *)
Definition env_down : Env := {|
  rng := fun _ => 0.5;
  stock_endpoint := fun _ _ => unreachable;
  historical_endpoint := fun _ _ _ => unreachable;
  news_endpoint := fun _ _ => unreachable;
  predict_endpoint := fun _ _ _ => unreachable |}.

Definition sample_quote : StockData := {|
  sd_symbol := "AAPL"; sd_name := "Apple Inc."; sd_currentPrice := 189.5;
  sd_change := 1.25; sd_changePercent := 0.66; sd_volume := 51000000;
  sd_marketCap := "2950B"; sd_high52Week := 199.6; sd_low52Week := 124.2;
  sd_peRatio := 31.2; sd_dividendYield := 0.5 |}.

Definition sample_article (i : string) (s : Sentiment) (score : number) : NewsData := {|
  nd_id := i; nd_headline := "Headline"; nd_summary := "Summary"; nd_content := "Content";
  nd_sentiment := s; nd_sentimentScore := 0; nd_finbertScore := score;
  nd_source := "Reuters"; nd_publishedAt := 1700000000000; nd_relevanceScore := 0.9 |}.

Definition sample_news : list NewsData :=
  [ sample_article "a" positive 0.8; sample_article "b" negative (-0.4);
    sample_article "c" neutral 0 ].

Definition sample_forecast : PredictReply := {|
  rp_predictions := [ {| lp_date := 19700; lp_predictedPrice := 190; lp_confidence := 0.9;
                         lp_upperBound := 195; lp_lowerBound := 185 |} ];
  rp_metrics := {| accuracy := 0.9; mse := 1; rmse := 1; mae := 1; r2Score := 0.8 |};
  rp_trend := bearish;
  rp_confidence := 0.77 |}.

(** A backend that answers every request. *)
Definition env_up : Env := {|
  rng := fun _ => 0.25;
  stock_endpoint := fun _ _ => answers sample_quote;
  historical_endpoint := fun _ _ _ => answers [];
  news_endpoint := fun _ _ => answers sample_news;
  predict_endpoint := fun _ _ _ => answers sample_forecast |}.

(** A backend whose quote, history and news endpoints answer while the
    forecast endpoint refuses. *)
Definition env_no_forecast : Env := {|
  rng := fun _ => 0.25;
  stock_endpoint := fun _ _ => answers sample_quote;
  historical_endpoint := fun _ _ _ => answers [];
  news_endpoint := fun _ _ => answers sample_news;
  predict_endpoint := fun _ _ _ => refuses |}.


(** The state of a freshly loaded application at clock reading [t]. *)
Definition start (t : Z) : State := {| cache := ∅; now := t; draws := 0; sent := [] |}.

(** The same state at a later clock reading. *)
Definition later (ms : Z) (s : State) : State :=
  {| cache := cache s; now := (now s + ms)%Z; draws := draws s; sent := sent s |}.

(** ** Vocabulary of the statements *)

#[global] Instance Qle_decision (x y : Q) : Decision (x <= y) :=
  match Qlt_le_dec y x with
  | left H => right (Qlt_not_le _ _ H)
  | right H => left H
  end.

#[global] Instance Qlt_decision (x y : Q) : Decision (x < y) :=
  match Qlt_le_dec x y with
  | left H => left H
  | right H => right (Qle_not_lt _ _ H)
  end.

#[global] Instance Sentiment_eq_dec : EqDecision Sentiment.
Proof. solve_decision. Defined.

(** *** Exchanges and state changes *)

(** The body an exchange delivers to the code: the fetch did not reject, the
    response was [ok], and [json()] resolved. *)
Definition delivered {T} (x : Exchange T) : option T :=
  match result x with
  | NetworkError => None
  | Responded r => if ok r then body r else None
  end.

(** The exchange failed: the fetch rejected, or the status was not a
    success, or the body did not parse. *)
Definition failed {T} (x : Exchange T) : Prop := delivered x = None.

(** [m] always resolves and only consumes random draws. *)
Definition only_draws {A} (m : M A) : Prop :=
  forall s, exists a n, m s = (Resolved a, drew n s).

(** The keys of the three categories. *)
Definition stock_key (ticker : string) : string := "stock_" +:+ ticker.
Definition predictions_key (ticker : string) : string := "predictions_" +:+ ticker.
Definition news_key (ticker : string) : string := "news_" +:+ ticker.

(** Every entry holds a payload of the category its key names. *)
Definition cache_wf (c : gmap string CacheEntry) : Prop :=
  forall ticker e,
    (c !! stock_key ticker = Some e -> exists d, ce_data e = PStock d)
    /\ (c !! predictions_key ticker = Some e -> exists d, ce_data e = PPredictions d)
    /\ (c !! news_key ticker = Some e -> exists d, ce_data e = PNews d).

(** *** Well-formed synthetic data *)

Definition bar_consistent (b : HistoricalData) : Prop :=
  Qmax (hd_open b) (hd_close b) <= hd_high b
  /\ hd_low b <= Qmin (hd_open b) (hd_close b).

Definition bounds_bracket (p : LSTMPrediction) : Prop :=
  lp_lowerBound p <= lp_predictedPrice p /\ lp_predictedPrice p <= lp_upperBound p.

(** *** The range constraints on a model configuration *)

Inductive Constraint :=
| SequenceLength | HiddenUnits | Layers | Dropout
| Epochs | BatchSize | LearningRate | ValidationSplit
| Features | TestSize | PredictionDays.


(** What each constraint asks of a configuration. *)
Definition holds (k : Constraint) (c : ModelConfig) : Prop :=
  match k with
  | SequenceLength => 1 <= sequenceLength (lstm c)
  | HiddenUnits => 1 <= hiddenUnits (lstm c)
  | Layers => 1 <= layers (lstm c)
  | Dropout => 0 <= dropout (lstm c) /\ dropout (lstm c) < 1
  | Epochs => 1 <= epochs (training c)
  | BatchSize => 1 <= batchSize (training c)
  | LearningRate => 0 < learningRate (training c)
  | ValidationSplit => 0 <= validationSplit (training c) /\ validationSplit (training c) < 1
  | Features => features (data c) <> []
  | TestSize => 0 <= testSize (data c) /\ testSize (data c) < 1
  | PredictionDays => 1 <= predictionDays (data c)
  end.

#[global] Instance holds_decision k c : Decision (holds k c).
Proof. destruct k; simpl; apply _. Defined.



(** A configuration that breaks three constraints. *)
Definition broken_config : ModelConfig := {|
  lstm := set_sequenceLength 0 (lstm defaultModelConfig_literal);
  training := set_epochs 0.5 (training defaultModelConfig_literal);
  data := {| features := []; targetColumn := "close"; scalingMethod := minmax;
             testSize := 0.2; predictionDays := 3 |};
  finbert := finbert defaultModelConfig_literal;
  news := news defaultModelConfig_literal;
  api := api defaultModelConfig_literal |}.

(** *** Sentiment counts and means *)

Definition count_label (label : Sentiment) (articles : list NewsData) : nat :=
  length (filter (fun a => nd_sentiment a = label) articles).

Definition sum_finbert (articles : list NewsData) : number :=
  fold_right Qplus 0 (map nd_finbertScore articles).

Definition mean_finbert (articles : list NewsData) : number :=
  sum_finbert articles / of_nat (length articles).

(* ================================================================== *)
(** * Properties *)
(* ================================================================== *)

(** ** Comparisons *)

Lemma num_lt_spec x y : num_lt x y = true <-> x < y.
Proof.
  unfold num_lt. rewrite negb_true_iff, <- not_true_iff_false, Qle_bool_iff.
  split; [apply Qnot_le_lt | apply Qlt_not_le].
Qed.

Lemma num_le_spec x y : num_le x y = true <-> x <= y.
Proof. apply Qle_bool_iff. Qed.

Lemma num_ge_spec x y : num_ge x y = true <-> y <= x.
Proof. apply Qle_bool_iff. Qed.

Lemma num_gt_spec x y : num_gt x y = true <-> y < x.
Proof. apply (num_lt_spec y x). Qed.

(** ** validateModelConfig *)










Example validateModelConfig_broken_config :
  validateModelConfig broken_config
  = [ "LSTM sequence length must be at least 1";
      "Training epochs must be at least 1";
      "At least one feature must be specified" ]%string.
Proof. reflexivity. Qed.

(** ** calculateSentimentWeights *)

Lemma count_label_cons label a l :
  count_label label (a :: l)
  = ((if decide (nd_sentiment a = label) then 1 else 0) + count_label label l)%nat.
Proof. unfold count_label. rewrite filter_cons. by destruct (decide _). Qed.

Lemma count_label_total l :
  (count_label positive l + count_label negative l + count_label neutral l)%nat = length l.
Proof.
  induction l as [| a l IH]; [done |].
  rewrite !count_label_cons. simpl length. rewrite <- IH.
  destruct (nd_sentiment a); simpl; lia.
Qed.

Lemma tally_fold l : forall t,
  let t' := fold_left tally_step l t in
  positiveCount t' = (positiveCount t + count_label positive l)%nat
  /\ negativeCount t' = (negativeCount t + count_label negative l)%nat
  /\ neutralCount t' = (neutralCount t + count_label neutral l)%nat
  /\ totalSentimentScore t' == totalSentimentScore t + sum_finbert l.
Proof.
  induction l as [| a l IH]; intros t; simpl.
  - unfold count_label, sum_finbert. simpl. rewrite !Nat.add_0_r, Qplus_0_r. done.
  - destruct (IH (tally_step t a)) as (Hp & Hn & Hu & Hs).
    rewrite Hp, Hn, Hu, Hs, !count_label_cons. clear.
    unfold sum_finbert, tally_step. simpl fold_right.
    destruct (nd_sentiment a); simpl; repeat split; try lia; ring.
Qed.

Lemma of_nat_add a b : of_nat (a + b) == of_nat a + of_nat b.
Proof. unfold of_nat. by rewrite Nat2Z.inj_add, inject_Z_plus. Qed.

Lemma of_nat_nonzero n : n <> 0%nat -> ~ of_nat n == 0.
Proof.
  intros Hn H. unfold of_nat, Qeq in H. simpl in H. lia.
Qed.

(** C2. On the empty list [calculateSentimentWeights] returns the fixed
    prior; on a non-empty list each weight is the number of articles with
    that label over the number of articles, [overallSentiment] is the mean
    of the [finbertScore] values, and the three weights sum to one. *)
Theorem calculateSentimentWeights_weights :
  calculateSentimentWeights []
  = {| w_positive := 0.33; w_negative := 0.33; w_neutral := 0.34; overallSentiment := 0 |}
  /\ forall articles : list NewsData, articles <> [] ->
       let w := calculateSentimentWeights articles in
       let total := of_nat (length articles) in
       w_positive w = of_nat (count_label positive articles) / total
       /\ w_negative w = of_nat (count_label negative articles) / total
       /\ w_neutral w = of_nat (count_label neutral articles) / total
       /\ overallSentiment w == mean_finbert articles
       /\ w_positive w + w_negative w + w_neutral w == 1.
Proof.
  split; [reflexivity |].
  intros articles Hne w total. subst w total. unfold calculateSentimentWeights.
  destruct (Nat.eqb_spec (length articles) 0) as [E | E].
  { destruct articles; [done | discriminate]. }
  destruct (tally_fold articles
              {| positiveCount := 0; negativeCount := 0; neutralCount := 0;
                 totalSentimentScore := 0 |}) as (Hp & Hn & Hu & Hs).
  simpl in Hp, Hn, Hu, Hs. cbv zeta. simpl w_positive. simpl w_negative.
  simpl w_neutral. simpl overallSentiment.
  rewrite Hp, Hn, Hu. repeat split.
  - unfold mean_finbert. rewrite Hs. by rewrite Qplus_0_l.
  - pose proof (of_nat_nonzero _ E) as Hnz.
    assert (Hsum : of_nat (count_label positive articles)
                   + of_nat (count_label negative articles)
                   + of_nat (count_label neutral articles)
                   == of_nat (length articles)).
    { rewrite <- !of_nat_add. by rewrite count_label_total. }
    transitivity ((of_nat (count_label positive articles)
                   + of_nat (count_label negative articles)
                   + of_nat (count_label neutral articles)) / of_nat (length articles)).
    + field. exact Hnz.
    + rewrite Hsum. field. exact Hnz.
Qed.

(** Three articles labelled positive, negative, neutral with scores
    0.8, -0.4 and 0. *)
Example calculateSentimentWeights_three_articles :
  let w := calculateSentimentWeights sample_news in
  w_positive w == 1 # 3 /\ w_negative w == 1 # 3 /\ w_neutral w == 1 # 3
  /\ overallSentiment w == 2 # 15.
Proof. by vm_compute. Qed.

Lemma calculateSentimentWeights_weights_witness :
  sample_news <> []
  /\ w_positive (calculateSentimentWeights sample_news)
     + w_negative (calculateSentimentWeights sample_news)
     + w_neutral (calculateSentimentWeights sample_news) == 1.
Proof.
  split; [discriminate |].
  apply (proj2 calculateSentimentWeights_weights sample_news). discriminate.
Defined.

(** ** Running the monad *)

Ltac run :=
  cbv beta iota zeta delta
    [mbind mret M_bind M_ret bind ret throw try_catch Math_random Date_now
     Date_today_plus cache_get cache_set json].

Lemma drew_drew n m s : drew n (drew m s) = drew (n + m) s.
Proof. unfold drew. simpl. f_equal. lia. Qed.

Lemma drew_0 s : drew 0 s = s.
Proof. by destruct s. Qed.

Lemma Math_floor_nonneg x : 0 <= x -> 0 <= Math_floor x.
Proof.
  intros H. unfold Math_floor. change 0 with (inject_Z 0).
  rewrite <- Zle_Qle. change 0%Z with (Qfloor 0). by apply Qfloor_resp_le.
Qed.

(** ** Synthetic quotes *)

(** C7. Both synthetic quotes, the provider's [getMockStockData] and the
    orchestrator's [getFallbackStockInfo], have a positive price, a
    non-negative volume, the uppercased ticker as symbol and the name derived
    from it; every other field is the same whatever ticker is asked from the
    same state. *)
Theorem synthetic_quote_invariants env ticker s : rng_ok env ->
  (exists q, getMockStockData env ticker s = (Resolved q, drew 6 s)
    /\ 0 < sd_currentPrice q /\ 0 <= sd_volume q
    /\ sd_symbol q = toUpperCase ticker
    /\ sd_name q = toUpperCase ticker +:+ " Corporation"
    /\ forall ticker', exists q',
         getMockStockData env ticker' s = (Resolved q', drew 6 s)
         /\ sd_currentPrice q' = sd_currentPrice q /\ sd_change q' = sd_change q
         /\ sd_changePercent q' = sd_changePercent q /\ sd_volume q' = sd_volume q
         /\ sd_marketCap q' = sd_marketCap q /\ sd_high52Week q' = sd_high52Week q
         /\ sd_low52Week q' = sd_low52Week q /\ sd_peRatio q' = sd_peRatio q
         /\ sd_dividendYield q' = sd_dividendYield q)
  /\ (exists i, getFallbackStockInfo env ticker s = (Resolved i, drew 4 s)
    /\ 0 < si_currentPrice i /\ 0 <= si_volume i
    /\ si_symbol i = toUpperCase ticker
    /\ si_name i = toUpperCase ticker +:+ " Corporation"
    /\ forall ticker', exists i',
         getFallbackStockInfo env ticker' s = (Resolved i', drew 4 s)
         /\ si_currentPrice i' = si_currentPrice i /\ si_change i' = si_change i
         /\ si_volume i' = si_volume i /\ si_marketCap i' = si_marketCap i).
Proof.
  intros Hrng.
  pose proof (Hrng (draws s)) as [H0 H1].
  pose proof (Hrng (S (S (draws s)))) as [H2 H3].
  split.
  - eexists. split; [unfold getMockStockData; run; reflexivity |]. simpl.
    split; [lra |]. split; [apply Math_floor_nonneg; lra |].
    split; [done |]. split; [done |].
    intros ticker'. eexists. split; [unfold getMockStockData; run; reflexivity |].
    simpl. done.
  - eexists. split; [unfold getFallbackStockInfo; run; reflexivity |]. simpl.
    split; [lra |]. split; [apply Math_floor_nonneg; lra |].
    split; [done |]. split; [done |].
    intros ticker'. eexists. split; [unfold getFallbackStockInfo; run; reflexivity |].
    simpl. done.
Qed.

Lemma env_down_rng_ok : rng_ok env_down.
Proof. intros n. simpl. split; lra. Qed.

Lemma synthetic_quote_invariants_witness :
  rng_ok env_down
  /\ exists q, getMockStockData env_down "aapl" (start 0) = (Resolved q, drew 6 (start 0))
            /\ 0 < sd_currentPrice q /\ sd_symbol q = "AAPL"%string.
Proof.
  split; [exact env_down_rng_ok |].
  destruct (synthetic_quote_invariants env_down "aapl" (start 0) env_down_rng_ok)
    as [(q & E & Hp & _ & Hs & _) _].
  exists q. repeat split; assumption.
Defined.

(** ** Synthetic histories *)

Lemma Math_max_upper x y : x <= Math_max x y /\ y <= Math_max x y.
Proof.
  unfold Math_max. destruct (num_ge x y) eqn:E.
  - apply num_ge_spec in E. split; [apply Qle_refl | exact E].
  - split; [| apply Qle_refl]. apply Qlt_le_weak, Qnot_le_lt. intros H.
    apply num_ge_spec in H. congruence.
Qed.

Lemma Math_min_lower x y : Math_min x y <= x /\ Math_min x y <= y.
Proof.
  unfold Math_min. destruct (num_le x y) eqn:E.
  - apply num_le_spec in E. split; [apply Qle_refl | exact E].
  - split; [| apply Qle_refl]. apply Qlt_le_weak, Qnot_le_lt. intros H.
    apply num_le_spec in H. congruence.
Qed.

Lemma days_back_S today n :
  days_back today (S n) = (today - Z.of_nat n)%Z :: days_back today n.
Proof. unfold days_back. by rewrite seq_S, rev_app_distr. Qed.



Lemma historical_loop_spec env :
  forall remaining currentPrice data s, exists bars,
    historical_loop env remaining currentPrice data s
    = (Resolved (data ++ bars), drew (5 * remaining) s)
    /\ length bars = remaining
    /\ (rng_ok env -> Forall bar_consistent bars)
    /\ map hd_date bars = days_back (day_of (now s)) remaining.
Proof.
  induction remaining as [| i IH]; intros cp data s.
  - exists []. simpl. rewrite app_nil_r, drew_0. repeat split; constructor.
  - simpl historical_loop. run.
    match goal with |- context [historical_loop env i ?cp' (data ++ [?b]) ?s'] =>
      destruct (IH cp' (data ++ [b]) s') as (bars & E & Hlen & Hok & Hdates);
      exists (b :: bars); rewrite E
    end.
    split.
    { rewrite <- app_assoc. simpl app.
      change (drew 1 (drew 1 (drew 1 (drew 1 (drew 1 s))))) with (drew 5 s).
      rewrite drew_drew. replace (5 * i + 5)%nat with (5 * S i)%nat by lia. reflexivity. }
    split; [simpl; by rewrite Hlen |].
    split.
    + intros Hrng. constructor; [| exact (Hok Hrng)]. unfold bar_consistent. simpl.
      match goal with
      | |- Qmax ?o ?c <= Math_max ?o ?c + rng env ?n1 * 3
           /\ Math_min ?o ?c - rng env ?n2 * 3 <= _ =>
          pose proof (Math_max_upper o c) as [? ?];
          pose proof (Math_min_lower o c) as [? ?];
          pose proof (Hrng n1) as [? ?];
          pose proof (Hrng n2) as [? ?]
      end.
      split; [apply Q.max_lub | apply Q.min_glb]; lra.
    + rewrite days_back_S. simpl. f_equal. exact Hdates.
Qed.

Lemma getMockHistoricalData_spec env ticker s : exists bars,
  getMockHistoricalData env ticker s = (Resolved bars, drew 155 s)
  /\ length bars = 31%nat
  /\ (rng_ok env -> Forall bar_consistent bars)
  /\ map hd_date bars = days_back (day_of (now s)) 31.
Proof.
  destruct (historical_loop_spec env 31 100 [] s) as (bars & E & H).
  exists bars. split; [exact E | exact H].
Qed.



(** ** Synthetic forecasts *)

Lemma prediction_loop_spec env :
  forall remaining i predictions s, exists ps,
    prediction_loop env remaining i 150 predictions s
    = (Resolved (predictions ++ ps), drew (2 * remaining) s)
    /\ length ps = remaining
    /\ (rng_ok env -> Forall bounds_bracket ps).
Proof.
  induction remaining as [| k IH]; intros i predictions s.
  - exists []. simpl. rewrite app_nil_r, drew_0. repeat split; constructor.
  - simpl prediction_loop. run.
    match goal with |- context [prediction_loop env k ?i' 150 (predictions ++ [?p]) ?s'] =>
      destruct (IH i' (predictions ++ [p]) s') as (ps & E & Hlen & Hok);
      exists (p :: ps); rewrite E
    end.
    split.
    { rewrite <- app_assoc. simpl app.
      change (drew 1 (drew 1 s)) with (drew 2 s).
      rewrite drew_drew. replace (2 * k + 2)%nat with (2 * S k)%nat by lia. reflexivity. }
    split; [simpl; by rewrite Hlen |].
    intros Hrng. constructor; [| exact (Hok Hrng)]. unfold bounds_bracket. simpl.
    match goal with |- context [rng env ?n] => pose proof (Hrng n) as [? ?] end.
    split; lra.
Qed.

Lemma getMockPredictionResult_spec env ticker s : exists r,
  getMockPredictionResult env ticker s = (Resolved r, drew 161 s)
  /\ length (pr_predictions r) = 3%nat
  /\ (rng_ok env -> Forall bounds_bracket (pr_predictions r)).
Proof.
  unfold getMockPredictionResult. run.
  destruct (prediction_loop_spec env 3 1%Z [] s) as (ps & E & Hlen & Hok). rewrite E.
  destruct (getMockHistoricalData_spec env ticker (drew (2 * 3) s)) as (bars & E' & _).
  rewrite E'. eexists. split; [by rewrite drew_drew |]. simpl. split; done.
Qed.

(** ** The provider

    The pattern shared by the three GET methods of the provider. *)
Lemma fetch_or_mock {T} req (endpoint : nat -> Exchange T) (msg : Response T -> Error)
    (mock : M T) s :
  try_catch
    (response ← fetch req endpoint;
     if negb (ok response) then throw (msg response) else json response)
    (fun _ => mock) s
  = match delivered (endpoint (length (sent s))) with
    | Some d => (Resolved d, exchanged req (elapsed (endpoint (length (sent s)))) s)
    | None => mock (exchanged req (elapsed (endpoint (length (sent s)))) s)
    end.
Proof.
  unfold delivered, fetch. run.
  destruct (result (endpoint (length (sent s)))) as [| [o st b]]; [reflexivity |].
  simpl. destruct o; [destruct b |]; reflexivity.
Qed.

Lemma getStockData_eval env ticker s :
  getStockData env ticker s
  = match delivered (stock_endpoint env (length (sent s)) ticker) with
    | Some d => (Resolved d,
                 exchanged (GET_stock ticker)
                   (elapsed (stock_endpoint env (length (sent s)) ticker)) s)
    | None => getMockStockData env ticker
                (exchanged (GET_stock ticker)
                   (elapsed (stock_endpoint env (length (sent s)) ticker)) s)
    end.
Proof. unfold getStockData. by rewrite fetch_or_mock. Qed.

Lemma getHistoricalData_eval env ticker period s :
  getHistoricalData env ticker period s
  = match delivered (historical_endpoint env (length (sent s)) ticker period) with
    | Some d => (Resolved d,
                 exchanged (GET_historical ticker period)
                   (elapsed (historical_endpoint env (length (sent s)) ticker period)) s)
    | None => getMockHistoricalData env ticker
                (exchanged (GET_historical ticker period)
                   (elapsed (historical_endpoint env (length (sent s)) ticker period)) s)
    end.
Proof. unfold getHistoricalData. by rewrite fetch_or_mock. Qed.

Lemma getNewsWithSentiment_eval env ticker s :
  getNewsWithSentiment env ticker s
  = match delivered (news_endpoint env (length (sent s)) ticker) with
    | Some d => (Resolved d,
                 exchanged (GET_news ticker)
                   (elapsed (news_endpoint env (length (sent s)) ticker)) s)
    | None => getMockNewsData ticker
                (exchanged (GET_news ticker)
                   (elapsed (news_endpoint env (length (sent s)) ticker)) s)
    end.
Proof. unfold getNewsWithSentiment. by rewrite fetch_or_mock. Qed.

Lemma getMockStockData_draws env ticker : only_draws (getMockStockData env ticker).
Proof. intros s. eexists _, 6%nat. unfold getMockStockData. run. reflexivity. Qed.

Lemma getMockHistoricalData_draws env ticker : only_draws (getMockHistoricalData env ticker).
Proof.
  intros s. destruct (getMockHistoricalData_spec env ticker s) as (bars & E & _).
  by exists bars, 155%nat.
Qed.

Lemma getMockNewsData_draws ticker : only_draws (getMockNewsData ticker).
Proof.
  intros s. eexists _, 0%nat. unfold getMockNewsData. run. by rewrite drew_0.
Qed.

Lemma getMockPredictionResult_draws env ticker :
  only_draws (getMockPredictionResult env ticker).
Proof.
  intros s. destruct (getMockPredictionResult_spec env ticker s) as (r & E & _).
  by exists r, 161%nat.
Qed.

(** A GET method resolves, keeps the cache, and sends its one request. *)
Lemma get_or_mock_resolves {T} req (x : Exchange T) (mock : M T) s :
  only_draws mock ->
  exists a s',
    match delivered x with
    | Some d => (Resolved d, exchanged req (elapsed x) s)
    | None => mock (exchanged req (elapsed x) s)
    end = (Resolved a, s')
    /\ cache s' = cache s /\ sent s' = sent s ++ [req].
Proof.
  intros Hmock. destruct (delivered x) as [d |].
  - by eexists _, _.
  - destruct (Hmock (exchanged req (elapsed x) s)) as (a & n & E).
    exists a, (drew n (exchanged req (elapsed x) s)). by rewrite E.
Qed.

Lemma getStockData_resolves env ticker s : exists q s',
  getStockData env ticker s = (Resolved q, s')
  /\ cache s' = cache s /\ sent s' = sent s ++ [GET_stock ticker].
Proof.
  rewrite getStockData_eval. apply get_or_mock_resolves, getMockStockData_draws.
Qed.

Lemma getHistoricalData_resolves env ticker period s : exists h s',
  getHistoricalData env ticker period s = (Resolved h, s')
  /\ cache s' = cache s /\ sent s' = sent s ++ [GET_historical ticker period].
Proof.
  rewrite getHistoricalData_eval. apply get_or_mock_resolves, getMockHistoricalData_draws.
Qed.

Lemma getNewsWithSentiment_resolves env ticker s : exists l s',
  getNewsWithSentiment env ticker s = (Resolved l, s')
  /\ cache s' = cache s /\ sent s' = sent s ++ [GET_news ticker].
Proof.
  rewrite getNewsWithSentiment_eval. apply get_or_mock_resolves, getMockNewsData_draws.
Qed.

(** [generatePredictions] gathers its three inputs, then either assembles the
    backend's forecast or, when the forecast exchange fails, runs
    [getMockPredictionResult]. *)
Lemma generatePredictions_eval env ticker s :
  exists stockData historicalData newsData s3,
    cache s3 = cache s
    /\ sent s3 = sent s ++ [GET_stock ticker; GET_historical ticker "1y"; GET_news ticker]
    /\ let sentimentWeights := calculateSentimentWeights newsData in
       let request := {| pb_historicalData := historicalData;
                         pb_sentimentWeights := sentimentWeights;
                         pb_modelConfig := modelConfig;
                         pb_predictionDays := 3 |} in
       let x := predict_endpoint env (length (sent s3)) ticker request in
       let s4 := exchanged (POST_predict ticker request) (elapsed x) s3 in
       generatePredictions env ticker s
       = match delivered x with
         | Some predictions =>
             (Resolved {| pr_symbol := ticker;
                          pr_currentPrice := sd_currentPrice stockData;
                          pr_historical := historicalData;
                          pr_predictions := rp_predictions predictions;
                          pr_modelMetrics := rp_metrics predictions;
                          pr_sentimentWeights := sentimentWeights;
                          pr_trend := rp_trend predictions;
                          pr_confidence := rp_confidence predictions;
                          pr_lastUpdated := now s4 |}, s4)
         | None => getMockPredictionResult env ticker s4
         end.
Proof.
  destruct (getStockData_resolves env ticker s) as (q & s1 & E1 & C1 & S1).
  destruct (getHistoricalData_resolves env ticker "1y" s1) as (h & s2 & E2 & C2 & S2).
  destruct (getNewsWithSentiment_resolves env ticker s2) as (l & s3 & E3 & C3 & S3).
  exists q, h, l, s3.
  split; [congruence |].
  split; [rewrite S3, S2, S1, <- !app_assoc; reflexivity |].
  cbv zeta. unfold generatePredictions, delivered, fetch. run.
  rewrite E1, E2, E3.
  destruct (result _) as [| [o st b]]; [reflexivity |].
  simpl. destruct o; [destruct b |]; reflexivity.
Qed.

(** ** The cache *)

Lemma cache_lookup_eval key s :
  cache_lookup key s = (Resolved (cache_hit (cache s !! key) (now s)), s).
Proof. reflexivity. Qed.

Lemma cache_store_eval key d s :
  cache_store key d s
  = (Resolved tt, stored key {| ce_data := d; ce_timestamp := now s |} s).
Proof. reflexivity. Qed.

Lemma cache_hit_Some cached t d :
  cache_hit cached t = Some d <->
  exists e, cached = Some e /\ ce_data e = d /\ (t - ce_timestamp e < cacheTimeout_ms)%Z.
Proof.
  unfold cache_hit. destruct cached as [e |].
  - destruct (Z.ltb_spec (t - ce_timestamp e) cacheTimeout_ms); split.
    + intros [= <-]. by exists e.
    + intros (e' & [= <-] & <- & _). done.
    + done.
    + intros (e' & [= <-] & _ & ?). lia.
  - split; [done | intros (e' & ? & _); done].
Qed.


(** [clearCache] leaves nothing for [getCacheStats] to count or to look up. *)
Lemma clearCache_empties s key :
  let s' := snd (clearCache s) in
  fst (getCacheStats s') = Resolved (0%nat, [])
  /\ fst (cache_lookup key s') = Resolved None.
Proof. done. Qed.

(** ** The orchestrator over any provider *)

Section Orchestrator.
Variable env : Env.
Variable svc : Provider.

Lemma getStockInfo_hit ticker s d :
  cache_hit (cache s !! stock_key ticker) (now s) = Some d ->
  getStockInfo env svc ticker s = (Resolved d, s).
Proof. intros H. unfold getStockInfo. run. rewrite cache_lookup_eval. fold (stock_key ticker). by rewrite H. Qed.

Lemma getStockInfo_miss ticker s q s1 :
  cache_hit (cache s !! stock_key ticker) (now s) = None ->
  p_getStockData svc ticker s = (Resolved q, s1) ->
  getStockInfo env svc ticker s
  = (Resolved (PStock (stockInfo_of q)),
     stored (stock_key ticker)
       {| ce_data := PStock (stockInfo_of q); ce_timestamp := now s1 |} s1).
Proof.
  intros H E. unfold getStockInfo. run. rewrite cache_lookup_eval.
  fold (stock_key ticker). by rewrite H, E.
Qed.

Lemma getFallbackStockInfo_draws ticker : only_draws (getFallbackStockInfo env ticker).
Proof. intros s. eexists _, 4%nat. unfold getFallbackStockInfo. run. reflexivity. Qed.

Lemma getStockInfo_caught ticker s e s1 :
  cache_hit (cache s !! stock_key ticker) (now s) = None ->
  p_getStockData svc ticker s = (Rejected e, s1) ->
  exists i s2,
    getFallbackStockInfo env ticker s1 = (Resolved i, s2)
    /\ cache s2 = cache s1
    /\ getStockInfo env svc ticker s = (Resolved (PStock i), s2).
Proof.
  intros H E. destruct (getFallbackStockInfo_draws ticker s1) as (i & n & Ei).
  exists i, (drew n s1). split; [exact Ei |]. split; [reflexivity |].
  unfold getStockInfo. run. rewrite cache_lookup_eval.
  fold (stock_key ticker). by rewrite H, E, Ei.
Qed.

Lemma getPredictions_hit ticker s d :
  cache_hit (cache s !! predictions_key ticker) (now s) = Some d ->
  getPredictions env svc ticker s = (Resolved d, s).
Proof.
  intros H. unfold getPredictions. run. rewrite cache_lookup_eval.
  fold (predictions_key ticker). by rewrite H.
Qed.

Lemma getPredictions_miss ticker s r s1 :
  cache_hit (cache s !! predictions_key ticker) (now s) = None ->
  p_generatePredictions svc ticker s = (Resolved r, s1) ->
  getPredictions env svc ticker s
  = (Resolved (PPredictions (predictionData_of r (now s1))),
     stored (predictions_key ticker)
       {| ce_data := PPredictions (predictionData_of r (now s1));
          ce_timestamp := now s1 |} s1).
Proof.
  intros H E. unfold getPredictions. run. rewrite cache_lookup_eval.
  fold (predictions_key ticker). by rewrite H, E.
Qed.

Lemma fallback_historical_loop_draws remaining : forall basePrice historical s,
  exists l, fallback_historical_loop env remaining basePrice historical s
            = (Resolved l, drew remaining s).
Proof.
  induction remaining as [| k IH]; intros basePrice historical s.
  - exists historical. simpl. by rewrite drew_0.
  - simpl. run.
    match goal with |- context [fallback_historical_loop env k ?b ?h ?s'] =>
      destruct (IH b h s') as (l & E) end.
    exists l. rewrite E, drew_drew. do 2 f_equal. lia.
Qed.

Lemma fallback_predictions_loop_draws remaining : forall lastPrice predictions s,
  exists l, fallback_predictions_loop env remaining lastPrice predictions s
            = (Resolved l, drew (2 * remaining) s).
Proof.
  induction remaining as [| k IH]; intros lastPrice predictions s.
  - exists predictions. simpl. by rewrite drew_0.
  - simpl fallback_predictions_loop. run.
    match goal with |- context [fallback_predictions_loop env k ?b ?h ?s'] =>
      destruct (IH b h s') as (l & E) end.
    exists l. rewrite E. change (drew 1 (drew 1 s)) with (drew 2 s).
    rewrite drew_drew. do 2 f_equal. lia.
Qed.

Lemma getFallbackPredictions_draws ticker : only_draws (getFallbackPredictions env ticker).
Proof.
  intros s. unfold getFallbackPredictions. run.
  destruct (fallback_historical_loop_draws 4 100 [] s) as (h & Eh). rewrite Eh.
  match goal with |- context [fallback_predictions_loop env 3 ?b ?l ?s'] =>
    destruct (fallback_predictions_loop_draws 3 b l s') as (p & Ep) end.
  rewrite Ep. eexists _, _. rewrite !drew_drew. reflexivity.
Qed.

Lemma getPredictions_caught ticker s e s1 :
  cache_hit (cache s !! predictions_key ticker) (now s) = None ->
  p_generatePredictions svc ticker s = (Rejected e, s1) ->
  exists d s2,
    getFallbackPredictions env ticker s1 = (Resolved d, s2)
    /\ cache s2 = cache s1
    /\ getPredictions env svc ticker s = (Resolved (PPredictions d), s2).
Proof.
  intros H E. destruct (getFallbackPredictions_draws ticker s1) as (d & n & Ed).
  exists d, (drew n s1). split; [exact Ed |]. split; [reflexivity |].
  unfold getPredictions. run. rewrite cache_lookup_eval.
  fold (predictions_key ticker). by rewrite H, E, Ed.
Qed.

Lemma getNews_hit ticker s d :
  cache_hit (cache s !! news_key ticker) (now s) = Some d ->
  getNews svc ticker s = (Resolved d, s).
Proof.
  intros H. unfold getNews. run. rewrite cache_lookup_eval.
  fold (news_key ticker). by rewrite H.
Qed.

Lemma getNews_miss ticker s l s1 :
  cache_hit (cache s !! news_key ticker) (now s) = None ->
  p_getNewsWithSentiment svc ticker s = (Resolved l, s1) ->
  getNews svc ticker s
  = (Resolved (PNews (map news_item l)),
     stored (news_key ticker)
       {| ce_data := PNews (map news_item l); ce_timestamp := now s1 |} s1).
Proof.
  intros H E. unfold getNews. run. rewrite cache_lookup_eval.
  fold (news_key ticker). by rewrite H, E.
Qed.

Lemma getFallbackNews_draws ticker : only_draws (getFallbackNews ticker).
Proof. intros s. eexists _, 0%nat. unfold getFallbackNews. run. by rewrite drew_0. Qed.

Lemma getNews_caught ticker s e s1 :
  cache_hit (cache s !! news_key ticker) (now s) = None ->
  p_getNewsWithSentiment svc ticker s = (Rejected e, s1) ->
  exists l s2,
    getFallbackNews ticker s1 = (Resolved l, s2)
    /\ cache s2 = cache s1
    /\ getNews svc ticker s = (Resolved (PNews l), s2).
Proof.
  intros H E. destruct (getFallbackNews_draws ticker s1) as (l & n & El).
  exists l, (drew n s1). split; [exact El |]. split; [reflexivity |].
  unfold getNews. run. rewrite cache_lookup_eval.
  fold (news_key ticker). by rewrite H, E, El.
Qed.

(** Whatever the provider does, the operations resolve. *)
Lemma getStockInfo_resolves ticker s :
  exists v s', getStockInfo env svc ticker s = (Resolved v, s').
Proof.
  destruct (cache_hit (cache s !! stock_key ticker) (now s)) as [v |] eqn:Hit.
  - exists v, s. by apply getStockInfo_hit.
  - destruct (p_getStockData svc ticker s) as [[q | e] s1] eqn:E.
    + eexists _, _. by apply getStockInfo_miss.
    + destruct (getStockInfo_caught ticker s e s1 Hit E) as (i & s2 & _ & _ & E').
      by eexists _, _.
Qed.

Lemma getPredictions_resolves ticker s :
  exists v s', getPredictions env svc ticker s = (Resolved v, s').
Proof.
  destruct (cache_hit (cache s !! predictions_key ticker) (now s)) as [v |] eqn:Hit.
  - exists v, s. by apply getPredictions_hit.
  - destruct (p_generatePredictions svc ticker s) as [[r | e] s1] eqn:E.
    + eexists _, _. by apply getPredictions_miss.
    + destruct (getPredictions_caught ticker s e s1 Hit E) as (d & s2 & _ & _ & E').
      by eexists _, _.
Qed.

Lemma getNews_resolves ticker s :
  exists v s', getNews svc ticker s = (Resolved v, s').
Proof.
  destruct (cache_hit (cache s !! news_key ticker) (now s)) as [v |] eqn:Hit.
  - exists v, s. by apply getNews_hit.
  - destruct (p_getNewsWithSentiment svc ticker s) as [[l | e] s1] eqn:E.
    + eexists _, _. by apply getNews_miss.
    + destruct (getNews_caught ticker s e s1 Hit E) as (l & s2 & _ & _ & E').
      by eexists _, _.
Qed.
End Orchestrator.

(** ** The time-to-live *)

(** C3. A payload stored under a key is returned by a lookup made at the same
    clock reading, is returned while fewer than [cacheTimeout_ms]
    milliseconds have passed since it was stored, and is a miss from then
    on; this holds for every key and payload. *)
Theorem cache_entry_lives_for_ttl (key : string) (v : Payload) (s : State) :
  let s1 := snd (cache_store key v s) in
  fst (cache_lookup key s1) = Resolved (Some v)
  /\ forall s2, cache s2 !! key = cache s1 !! key ->
       ((now s2 - now s < cacheTimeout_ms)%Z ->
        fst (cache_lookup key s2) = Resolved (Some v))
       /\ ((cacheTimeout_ms <= now s2 - now s)%Z ->
           fst (cache_lookup key s2) = Resolved None).
Proof.
  cbv zeta. rewrite cache_store_eval. simpl snd.
  assert (E : cache (stored key {| ce_data := v; ce_timestamp := now s |} s) !! key
              = Some {| ce_data := v; ce_timestamp := now s |}).
  { simpl. apply lookup_insert_eq. }
  split.
  - rewrite cache_lookup_eval, E. simpl. rewrite Z.sub_diag. reflexivity.
  - intros s2 Hkeep. rewrite cache_lookup_eval, Hkeep, E. simpl. split; intros H.
    + destruct (Z.ltb_spec (now s2 - now s) cacheTimeout_ms); [done | lia].
    + destruct (Z.ltb_spec (now s2 - now s) cacheTimeout_ms); [lia | done].
Qed.

Lemma cache_entry_lives_for_ttl_witness :
  let s1 := snd (cache_store "stock_AAPL" (PNews []) (start 0)) in
  (now (later 299999 s1) - now (start 0) < cacheTimeout_ms)%Z
  /\ fst (cache_lookup "stock_AAPL" (later 299999 s1)) = Resolved (Some (PNews []))
  /\ (cacheTimeout_ms <= now (later 300000 s1) - now (start 0))%Z
  /\ fst (cache_lookup "stock_AAPL" (later 300000 s1)) = Resolved None.
Proof.
  cbv zeta.
  pose proof (cache_entry_lives_for_ttl "stock_AAPL" (PNews []) (start 0)) as [_ H].
  split; [reflexivity |]. split.
  - apply (H (later 299999 _)); reflexivity.
  - split; [discriminate |]. apply (H (later 300000 _)); [reflexivity | discriminate].
Defined.

(** ** getModelConfig *)

Lemma get_refs_insert_other h l l' o :
  (forall r, o <> OConfig r) -> get_refs h l' = None ->
  get_refs (<[l' := o]> h) l = get_refs h l.
Proof.
  intros Ho Hl'. unfold get_refs in *. destruct (decide (l = l')) as [-> | Hne].
  - destruct (h !! l') as [c |] eqn:E.
    + rewrite list_lookup_insert_eq by (by eapply lookup_lt_Some).
      destruct o; try done. by destruct (Ho o). 
    + rewrite list_insert_ge by (by apply lookup_ge_None). by rewrite E.
  - by rewrite list_lookup_insert_ne.
Qed.

Lemma get_refs_not_training h l t : get_training h l = Some t -> get_refs h l = None.
Proof. unfold get_training, get_refs. by destruct (h !! l) as [[] |]. Qed.
Lemma get_refs_not_lstm h l t : get_lstm h l = Some t -> get_refs h l = None.
Proof. unfold get_lstm, get_refs. by destruct (h !! l) as [[] |]. Qed.
Lemma get_refs_not_news h l t : get_news h l = Some t -> get_refs h l = None.
Proof. unfold get_news, get_refs. by destruct (h !! l) as [[] |]. Qed.
Lemma get_refs_not_api h l t : get_api h l = Some t -> get_refs h l = None.
Proof. unfold get_api, get_refs. by destruct (h !! l) as [[] |]. Qed.

Lemma assign_training_epochs_refs config v h h' :
  assign_training_epochs config v h = Some h' -> forall l, get_refs h' l = get_refs h l.
Proof.
  unfold assign_training_epochs. intros H l.
  destruct (get_refs h config) as [r |]; [simpl in H | done].
  destruct (get_training h (r_training r)) as [t |] eqn:E; [simpl in H | done].
  injection H as <-. apply get_refs_insert_other; [done | by eapply get_refs_not_training].
Qed.

Lemma assign_lstm_sequenceLength_refs config v h h' :
  assign_lstm_sequenceLength config v h = Some h' -> forall l, get_refs h' l = get_refs h l.
Proof.
  unfold assign_lstm_sequenceLength. intros H l.
  destruct (get_refs h config) as [r |]; [simpl in H | done].
  destruct (get_lstm h (r_lstm r)) as [t |] eqn:E; [simpl in H | done].
  injection H as <-. apply get_refs_insert_other; [done | by eapply get_refs_not_lstm].
Qed.

Lemma assign_news_maxArticles_refs config v h h' :
  assign_news_maxArticles config v h = Some h' -> forall l, get_refs h' l = get_refs h l.
Proof.
  unfold assign_news_maxArticles. intros H l.
  destruct (get_refs h config) as [r |]; [simpl in H | done].
  destruct (get_news h (r_news r)) as [t |] eqn:E; [simpl in H | done].
  injection H as <-. apply get_refs_insert_other; [done | by eapply get_refs_not_news].
Qed.

Lemma assign_api_cacheTimeout_refs config v h h' :
  assign_api_cacheTimeout config v h = Some h' -> forall l, get_refs h' l = get_refs h l.
Proof.
  unfold assign_api_cacheTimeout. intros H l.
  destruct (get_refs h config) as [r |]; [simpl in H | done].
  destruct (get_api h (r_api r)) as [t |] eqn:E; [simpl in H | done].
  injection H as <-. apply get_refs_insert_other; [done | by eapply get_refs_not_api].
Qed.

Lemma getModelConfig_refs e h config h' :
  getModelConfig e h = Some (config, h') ->
  exists r, get_refs h defaultModelConfig = Some r
            /\ config = length h
            /\ forall l, get_refs h' l = get_refs (h ++ [OConfig r]) l.
Proof.
  unfold getModelConfig, alloc. intros H.
  destruct (get_refs h defaultModelConfig) as [r |]; [simpl in H | done].
  exists r. split; [done |].
  destruct e.
  - destruct (assign_training_epochs _ _ _) as [h1 |] eqn:E1; [simpl in H | done].
    destruct (assign_lstm_sequenceLength _ _ _) as [h2 |] eqn:E2; [simpl in H | done].
    destruct (assign_news_maxArticles _ _ _) as [h3 |] eqn:E3; [simpl in H | done].
    injection H as <- <-. split; [done |]. intros l.
    rewrite (assign_news_maxArticles_refs _ _ _ _ E3),
      (assign_lstm_sequenceLength_refs _ _ _ _ E2).
    apply (assign_training_epochs_refs _ _ _ _ E1).
  - simpl in H. injection H as <- <-. done.
  - destruct (assign_training_epochs _ _ _) as [h1 |] eqn:E1; [simpl in H | done].
    destruct (assign_lstm_sequenceLength _ _ _) as [h2 |] eqn:E2; [simpl in H | done].
    destruct (assign_news_maxArticles _ _ _) as [h3 |] eqn:E3; [simpl in H | done].
    destruct (assign_api_cacheTimeout _ _ _) as [h4 |] eqn:E4; [simpl in H | done].
    injection H as <- <-. split; [done |]. intros l.
    rewrite (assign_api_cacheTimeout_refs _ _ _ _ E4),
      (assign_news_maxArticles_refs _ _ _ _ E3),
      (assign_lstm_sequenceLength_refs _ _ _ _ E2).
    apply (assign_training_epochs_refs _ _ _ _ E1).
Qed.

(** C9. The object [getModelConfig] returns is a new object holding the same
    references as [defaultModelConfig], so its nested objects are the
    default's own.  From the freshly loaded module the default has 100
    epochs; after [getModelConfig('testing')] the default itself reads 5
    epochs, and so does the result of a later [getModelConfig('production')];
    after [getModelConfig('development')] the default reads 10. *)
Theorem getModelConfig_aliases_defaults :
  (forall e h config h',
     getModelConfig e h = Some (config, h') ->
     config <> defaultModelConfig
     /\ get_refs h' config = get_refs h defaultModelConfig
     /\ get_refs h' defaultModelConfig = get_refs h defaultModelConfig)
  /\ (epochs ∘ training <$> read_config init_heap defaultModelConfig) = Some 100
  /\ (exists c1 h1,
        getModelConfig testing init_heap = Some (c1, h1)
        /\ (epochs ∘ training <$> read_config h1 defaultModelConfig) = Some 5
        /\ exists c2 h2,
             getModelConfig production h1 = Some (c2, h2)
             /\ (epochs ∘ training <$> read_config h2 c2) = Some 5)
  /\ (exists c1 h1,
        getModelConfig development init_heap = Some (c1, h1)
        /\ (epochs ∘ training <$> read_config h1 defaultModelConfig) = Some 10).
Proof.
  split; [| split; [reflexivity | split]].
  - intros e h config h' H.
    destruct (getModelConfig_refs _ _ _ _ H) as (r & Hr & -> & Hrefs).
    assert (Hlt : (defaultModelConfig < length h)%nat).
    { unfold get_refs in Hr. destruct (h !! defaultModelConfig) eqn:E; [| done].
      by eapply lookup_lt_Some. }
    split; [lia |]. rewrite !Hrefs. unfold get_refs in *. split.
    + rewrite lookup_app_r by lia. rewrite Nat.sub_diag. simpl. done.
    + by rewrite lookup_app_l by lia.
  - eexists _, _. split; [reflexivity |]. split; [reflexivity |].
    eexists _, _. split; reflexivity.
  - eexists _, _. split; reflexivity.
Qed.

Lemma getModelConfig_aliases_defaults_witness :
  exists config h',
    getModelConfig testing init_heap = Some (config, h')
    /\ get_refs h' config = get_refs init_heap defaultModelConfig.
Proof.
  eexists _, _. split; [reflexivity |].
  apply (proj1 getModelConfig_aliases_defaults testing init_heap). reflexivity.
Defined.

(** ** The cache invariant *)

Lemma keys_disjoint a b :
  stock_key a <> predictions_key b /\ stock_key a <> news_key b
  /\ predictions_key a <> news_key b.
Proof. unfold stock_key, predictions_key, news_key. simpl. repeat split; discriminate. Qed.

Lemma cache_wf_empty : cache_wf ∅.
Proof. intros ticker e. rewrite !lookup_empty. repeat split; discriminate. Qed.

Lemma cache_wf_insert_stock c ticker d t :
  cache_wf c -> cache_wf (<[stock_key ticker := {| ce_data := PStock d; ce_timestamp := t |}]> c).
Proof.
  intros Hwf ticker' e. destruct (Hwf ticker' e) as (Hs & Hp & Hn).
  destruct (keys_disjoint ticker ticker') as (D1 & D2 & _).
  rewrite (lookup_insert_ne _ _ (predictions_key ticker')) by done.
  rewrite (lookup_insert_ne _ _ (news_key ticker')) by done.
  repeat split; [| done | done].
  destruct (decide (stock_key ticker = stock_key ticker')) as [E | E].
  - rewrite <- E, lookup_insert_eq. intros [= <-]. by eexists.
  - by rewrite lookup_insert_ne.
Qed.

Lemma cache_wf_insert_predictions c ticker d t :
  cache_wf c ->
  cache_wf (<[predictions_key ticker := {| ce_data := PPredictions d; ce_timestamp := t |}]> c).
Proof.
  intros Hwf ticker' e. destruct (Hwf ticker' e) as (Hs & Hp & Hn).
  destruct (keys_disjoint ticker' ticker) as (D1 & _ & _).
  destruct (keys_disjoint ticker ticker') as (_ & _ & D3).
  rewrite (lookup_insert_ne _ _ (stock_key ticker')) by done.
  rewrite (lookup_insert_ne _ _ (news_key ticker')) by done.
  repeat split; [done | | done].
  destruct (decide (predictions_key ticker = predictions_key ticker')) as [E | E].
  - rewrite <- E, lookup_insert_eq. intros [= <-]. by eexists.
  - by rewrite lookup_insert_ne.
Qed.

Lemma cache_wf_insert_news c ticker d t :
  cache_wf c -> cache_wf (<[news_key ticker := {| ce_data := PNews d; ce_timestamp := t |}]> c).
Proof.
  intros Hwf ticker' e. destruct (Hwf ticker' e) as (Hs & Hp & Hn).
  destruct (keys_disjoint ticker' ticker) as (_ & D2 & D3).
  rewrite (lookup_insert_ne _ _ (stock_key ticker')) by done.
  rewrite (lookup_insert_ne _ _ (predictions_key ticker')) by done.
  repeat split; [done | done |].
  destruct (decide (news_key ticker = news_key ticker')) as [E | E].
  - rewrite <- E, lookup_insert_eq. intros [= <-]. by eexists.
  - by rewrite lookup_insert_ne.
Qed.

(** ** The orchestrator wired to the provider *)

Lemma mock_getStockInfo_miss env ticker s :
  cache_hit (cache s !! stock_key ticker) (now s) = None ->
  exists q s1,
    getStockData env ticker s = (Resolved q, s1)
    /\ cache s1 = cache s /\ sent s1 = sent s ++ [GET_stock ticker]
    /\ mock_getStockInfo env ticker s
       = (Resolved (PStock (stockInfo_of q)),
          stored (stock_key ticker)
            {| ce_data := PStock (stockInfo_of q); ce_timestamp := now s1 |} s1).
Proof.
  intros H. destruct (getStockData_resolves env ticker s) as (q & s1 & E & Hc & Hs).
  exists q, s1. repeat split; try done.
  by apply getStockInfo_miss.
Qed.

Lemma mock_getPredictions_miss env ticker s :
  cache_hit (cache s !! predictions_key ticker) (now s) = None ->
  exists r s1,
    generatePredictions env ticker s = (Resolved r, s1)
    /\ mock_getPredictions env ticker s
       = (Resolved (PPredictions (predictionData_of r (now s1))),
          stored (predictions_key ticker)
            {| ce_data := PPredictions (predictionData_of r (now s1));
               ce_timestamp := now s1 |} s1).
Proof.
  intros H.
  destruct (generatePredictions_eval env ticker s) as (q & h & l & s3 & _ & _ & E).
  cbv zeta in E. destruct (delivered _) as [p |].
  - eexists _, _. split; [exact E |]. by apply getPredictions_miss.
  - match type of E with _ = getMockPredictionResult env ticker ?s4 =>
      destruct (getMockPredictionResult_spec env ticker s4) as (r & Er & _) end.
    rewrite Er in E. eexists _, _. split; [exact E |]. by apply getPredictions_miss.
Qed.

Lemma mock_getNews_miss env ticker s :
  cache_hit (cache s !! news_key ticker) (now s) = None ->
  exists l s1,
    getNewsWithSentiment env ticker s = (Resolved l, s1)
    /\ cache s1 = cache s /\ sent s1 = sent s ++ [GET_news ticker]
    /\ mock_getNews env ticker s
       = (Resolved (PNews (map news_item l)),
          stored (news_key ticker)
            {| ce_data := PNews (map news_item l); ce_timestamp := now s1 |} s1).
Proof.
  intros H. destruct (getNewsWithSentiment_resolves env ticker s) as (l & s1 & E & Hc & Hs).
  exists l, s1. repeat split; try done.
  by apply getNews_miss.
Qed.

Lemma generatePredictions_resolves env ticker s : exists r s',
  generatePredictions env ticker s = (Resolved r, s')
  /\ cache s' = cache s
  /\ exists request,
       sent s' = sent s ++ [GET_stock ticker; GET_historical ticker "1y";
                            GET_news ticker; POST_predict ticker request].
Proof.
  destruct (generatePredictions_eval env ticker s) as (q & h & l & s3 & Hc & Hs & E).
  cbv zeta in E. destruct (delivered _) as [p |].
  - eexists _, _. split; [exact E |]. simpl. split; [done |].
    eexists. rewrite Hs, <- app_assoc. reflexivity.
  - match type of E with _ = getMockPredictionResult env ticker ?s4 =>
      destruct (getMockPredictionResult_spec env ticker s4) as (r & Er & _) end.
    rewrite Er in E. eexists _, _. split; [exact E |]. simpl. split; [done |].
    eexists. rewrite Hs, <- app_assoc. reflexivity.
Qed.

Lemma mock_getPredictions_resolves env ticker s :
  exists v s', mock_getPredictions env ticker s = (Resolved v, s').
Proof. apply getPredictions_resolves. Qed.

(** C1. Each of [getStockInfo], [getPredictions] and [getNews] resolves, for
    every ticker and from every state, and never rejects, whether the
    provider resolves or rejects; wired to [lstmModelService] and over a
    cache whose entries match their keys' categories, the value is a payload
    of the operation's own category and the cache stays so.  In the provider a
    failed exchange (the fetch rejects, the status is not a success, or the
    body does not parse) is replaced by the synthetic value of the matching
    mock generator. *)
Theorem operations_always_resolve env ticker s :
  (forall svc,
     (exists v s', getStockInfo env svc ticker s = (Resolved v, s'))
     /\ (exists v s', getPredictions env svc ticker s = (Resolved v, s'))
     /\ (exists v s', getNews svc ticker s = (Resolved v, s')))
  /\ (exists v s', mock_getStockInfo env ticker s = (Resolved v, s')
     /\ (cache_wf (cache s) -> (exists d, v = PStock d) /\ cache_wf (cache s')))
  /\ (exists v s', mock_getPredictions env ticker s = (Resolved v, s')
     /\ (cache_wf (cache s) -> (exists d, v = PPredictions d) /\ cache_wf (cache s')))
  /\ (exists v s', mock_getNews env ticker s = (Resolved v, s')
     /\ (cache_wf (cache s) -> (exists d, v = PNews d) /\ cache_wf (cache s')))
  /\ (failed (stock_endpoint env (length (sent s)) ticker) ->
      getStockData env ticker s
      = getMockStockData env ticker
          (exchanged (GET_stock ticker)
             (elapsed (stock_endpoint env (length (sent s)) ticker)) s))
  /\ (forall period,
      failed (historical_endpoint env (length (sent s)) ticker period) ->
      getHistoricalData env ticker period s
      = getMockHistoricalData env ticker
          (exchanged (GET_historical ticker period)
             (elapsed (historical_endpoint env (length (sent s)) ticker period)) s))
  /\ (failed (news_endpoint env (length (sent s)) ticker) ->
      getNewsWithSentiment env ticker s
      = getMockNewsData ticker
          (exchanged (GET_news ticker)
             (elapsed (news_endpoint env (length (sent s)) ticker)) s)).
Proof.
  split; [| split; [| split; [| split; [| split; [| split]]]]].
  - intros svc. split; [| split].
    + apply getStockInfo_resolves.
    + apply getPredictions_resolves.
    + apply getNews_resolves.
  - destruct (cache_hit (cache s !! stock_key ticker) (now s)) as [v |] eqn:Hit.
    + exists v, s. split; [by apply getStockInfo_hit |]. intros Hwf. split; [| done].
      apply cache_hit_Some in Hit as (e & He & <- & _). by apply (Hwf ticker e).
    + destruct (mock_getStockInfo_miss env ticker s Hit) as (q & s1 & _ & Hc & _ & E).
      eexists _, _. split; [exact E |]. intros Hwf. split; [by eexists |].
      simpl. rewrite Hc. by apply cache_wf_insert_stock.
  - destruct (cache_hit (cache s !! predictions_key ticker) (now s)) as [v |] eqn:Hit.
    + exists v, s. split; [by apply getPredictions_hit |]. intros Hwf. split; [| done].
      apply cache_hit_Some in Hit as (e & He & <- & _). by apply (Hwf ticker e).
    + destruct (mock_getPredictions_miss env ticker s Hit) as (r & s1 & Er & E).
      destruct (generatePredictions_resolves env ticker s) as (r' & s1' & Er' & Hc & _).
      rewrite Er in Er'. injection Er' as <- <-.
      eexists _, _. split; [exact E |]. intros Hwf. split; [by eexists |].
      simpl. rewrite Hc. by apply cache_wf_insert_predictions.
  - destruct (cache_hit (cache s !! news_key ticker) (now s)) as [v |] eqn:Hit.
    + exists v, s. split; [by apply getNews_hit |]. intros Hwf. split; [| done].
      apply cache_hit_Some in Hit as (e & He & <- & _). by apply (Hwf ticker e).
    + destruct (mock_getNews_miss env ticker s Hit) as (l & s1 & _ & Hc & _ & E).
      eexists _, _. split; [exact E |]. intros Hwf. split; [by eexists |].
      simpl. rewrite Hc. by apply cache_wf_insert_news.
  - intros H. rewrite getStockData_eval. unfold failed in H. by rewrite H.
  - intros period H. rewrite getHistoricalData_eval. unfold failed in H. by rewrite H.
  - intros H. rewrite getNewsWithSentiment_eval. unfold failed in H. by rewrite H.
Qed.

Lemma operations_always_resolve_witness :
  cache_wf (cache (start 0))
  /\ failed (stock_endpoint env_down (length (sent (start 0))) "AAPL")
  /\ (exists d s', mock_getStockInfo env_down "AAPL" (start 0) = (Resolved (PStock d), s'))
  /\ getStockData env_down "AAPL" (start 0)
     = getMockStockData env_down "AAPL" (exchanged (GET_stock "AAPL") 40 (start 0)).
Proof.
  pose proof (operations_always_resolve env_down "AAPL" (start 0))
    as (_ & (v & s' & E & Hwf) & _ & _ & Hfail & _).
  split; [exact cache_wf_empty |]. split; [reflexivity |]. split.
  - destruct (Hwf cache_wf_empty) as [[d ->] _]. by exists d, s'.
  - apply Hfail. reflexivity.
Defined.

(** ** Forecast failure *)

(** C4. When the forecast exchange fails, [getPredictions] still resolves,
    and [generatePredictions] resolves with a synthetic result of exactly
    three forecast points, each with
    [lowerBound <= predictedPrice <= upperBound]; on a cache miss
    [getPredictions] returns the three predicted prices of that result. *)
Theorem forecast_failure_fallback env ticker s :
  rng_ok env ->
  (forall n request, failed (predict_endpoint env n ticker request)) ->
  (exists v s', mock_getPredictions env ticker s = (Resolved v, s'))
  /\ exists r s',
    generatePredictions env ticker s = (Resolved r, s')
    /\ length (pr_predictions r) = 3%nat
    /\ Forall bounds_bracket (pr_predictions r)
    /\ (cache_hit (cache s !! predictions_key ticker) (now s) = None ->
        exists d s'',
          mock_getPredictions env ticker s = (Resolved (PPredictions d), s'')
          /\ pd_predictions d = map lp_predictedPrice (pr_predictions r)
          /\ length (pd_predictions d) = 3%nat).
Proof.
  intros Hrng Hfail. split; [apply mock_getPredictions_resolves |].
  destruct (generatePredictions_eval env ticker s) as (q & h & l & s3 & _ & _ & E).
  cbv zeta in E. rewrite (Hfail _ _) in E.
  match type of E with _ = getMockPredictionResult env ticker ?s4 =>
    destruct (getMockPredictionResult_spec env ticker s4) as (r & Er & Hlen & Hok) end.
  rewrite Er in E. eexists r, _. split; [exact E |]. split; [exact Hlen |].
  split; [exact (Hok Hrng) |]. intros Hmiss.
  eexists _, _. split; [by apply getPredictions_miss |].
  split; [reflexivity |]. simpl. by rewrite length_map.
Qed.

Lemma env_no_forecast_rng_ok : rng_ok env_no_forecast.
Proof. intros n. simpl. split; lra. Qed.

Lemma forecast_failure_fallback_witness :
  rng_ok env_no_forecast
  /\ (forall n request, failed (predict_endpoint env_no_forecast n "AAPL" request))
  /\ exists r s',
       generatePredictions env_no_forecast "AAPL" (start 0) = (Resolved r, s')
       /\ length (pr_predictions r) = 3%nat
       /\ Forall bounds_bracket (pr_predictions r).
Proof.
  split; [exact env_no_forecast_rng_ok |]. split; [reflexivity |].
  destruct (forecast_failure_fallback env_no_forecast "AAPL" (start 0)
              env_no_forecast_rng_ok (fun _ _ => eq_refl))
    as (_ & r & s' & E & Hlen & Hok & _).
  by exists r, s'.
Defined.

(** ** Repeated calls *)

Lemma getStockInfo_served env svc ticker s e :
  cache s !! stock_key ticker = Some e ->
  (now s - ce_timestamp e < cacheTimeout_ms)%Z ->
  getStockInfo env svc ticker s = (Resolved (ce_data e), s).
Proof. intros H Ht. apply getStockInfo_hit, cache_hit_Some. by exists e. Qed.

Lemma getPredictions_served env svc ticker s e :
  cache s !! predictions_key ticker = Some e ->
  (now s - ce_timestamp e < cacheTimeout_ms)%Z ->
  getPredictions env svc ticker s = (Resolved (ce_data e), s).
Proof. intros H Ht. apply getPredictions_hit, cache_hit_Some. by exists e. Qed.

Lemma getNews_served svc ticker s e :
  cache s !! news_key ticker = Some e ->
  (now s - ce_timestamp e < cacheTimeout_ms)%Z ->
  getNews svc ticker s = (Resolved (ce_data e), s).
Proof. intros H Ht. apply getNews_hit, cache_hit_Some. by exists e. Qed.

(** C5. After a call of an operation for a ticker the cache holds the
    returned payload under the operation's key, the call has sent the
    requests of at most one provider call, and any later call for the same
    ticker that finds this entry younger than the time-to-live returns the
    same payload and leaves the state, hence the list of requests sent, as
    it is. *)
Theorem repeated_calls_reuse_cache env ticker s0 :
  (exists v e s1,
     mock_getStockInfo env ticker s0 = (Resolved v, s1)
     /\ cache s1 !! stock_key ticker = Some e /\ ce_data e = v
     /\ (sent s1 = sent s0 \/ sent s1 = sent s0 ++ [GET_stock ticker])
     /\ forall s2, cache s2 !! stock_key ticker = Some e ->
          (now s2 - ce_timestamp e < cacheTimeout_ms)%Z ->
          mock_getStockInfo env ticker s2 = (Resolved v, s2))
  /\ (exists v e s1,
     mock_getPredictions env ticker s0 = (Resolved v, s1)
     /\ cache s1 !! predictions_key ticker = Some e /\ ce_data e = v
     /\ (sent s1 = sent s0
         \/ exists request,
              sent s1 = sent s0 ++ [GET_stock ticker; GET_historical ticker "1y";
                                    GET_news ticker; POST_predict ticker request])
     /\ forall s2, cache s2 !! predictions_key ticker = Some e ->
          (now s2 - ce_timestamp e < cacheTimeout_ms)%Z ->
          mock_getPredictions env ticker s2 = (Resolved v, s2))
  /\ (exists v e s1,
     mock_getNews env ticker s0 = (Resolved v, s1)
     /\ cache s1 !! news_key ticker = Some e /\ ce_data e = v
     /\ (sent s1 = sent s0 \/ sent s1 = sent s0 ++ [GET_news ticker])
     /\ forall s2, cache s2 !! news_key ticker = Some e ->
          (now s2 - ce_timestamp e < cacheTimeout_ms)%Z ->
          mock_getNews env ticker s2 = (Resolved v, s2)).
Proof.
  split; [| split].
  - destruct (cache_hit (cache s0 !! stock_key ticker) (now s0)) as [v |] eqn:Hit.
    + pose proof Hit as Hit'. apply cache_hit_Some in Hit' as (e & He & <- & Ht).
      exists (ce_data e), e, s0. split; [by apply getStockInfo_hit |].
      split; [done |]. split; [done |]. split; [by left |].
      intros s2 H2 Ht2. by apply getStockInfo_served.
    + destruct (mock_getStockInfo_miss env ticker s0 Hit) as (q & s1 & _ & Hc & Hs & E).
      eexists _, _, _. split; [exact E |]. simpl.
      split; [apply lookup_insert_eq |]. split; [done |]. split; [by right |].
      intros s2 H2 Ht2. by apply (getStockInfo_served _ _ _ _ _ H2).
  - destruct (cache_hit (cache s0 !! predictions_key ticker) (now s0)) as [v |] eqn:Hit.
    + pose proof Hit as Hit'. apply cache_hit_Some in Hit' as (e & He & <- & Ht).
      exists (ce_data e), e, s0. split; [by apply getPredictions_hit |].
      split; [done |]. split; [done |]. split; [by left |].
      intros s2 H2 Ht2. by apply getPredictions_served.
    + destruct (mock_getPredictions_miss env ticker s0 Hit) as (r & s1 & Er & E).
      destruct (generatePredictions_resolves env ticker s0) as (r' & s1' & Er' & _ & Hs).
      rewrite Er in Er'. injection Er' as <- <-.
      eexists _, _, _. split; [exact E |]. simpl.
      split; [apply lookup_insert_eq |]. split; [done |]. split; [by right |].
      intros s2 H2 Ht2. by apply (getPredictions_served _ _ _ _ _ H2).
  - destruct (cache_hit (cache s0 !! news_key ticker) (now s0)) as [v |] eqn:Hit.
    + pose proof Hit as Hit'. apply cache_hit_Some in Hit' as (e & He & <- & Ht).
      exists (ce_data e), e, s0. split; [by apply getNews_hit |].
      split; [done |]. split; [done |]. split; [by left |].
      intros s2 H2 Ht2. by apply getNews_served.
    + destruct (mock_getNews_miss env ticker s0 Hit) as (l & s1 & _ & Hc & Hs & E).
      eexists _, _, _. split; [exact E |]. simpl.
      split; [apply lookup_insert_eq |]. split; [done |]. split; [by right |].
      intros s2 H2 Ht2. by apply (getNews_served _ _ _ _ H2).
Qed.

Lemma repeated_calls_reuse_cache_witness :
  exists v s1,
    mock_getStockInfo env_up "AAPL" (start 0) = (Resolved v, s1)
    /\ sent s1 = [GET_stock "AAPL"]
    /\ mock_getStockInfo env_up "AAPL" (later 1000 s1) = (Resolved v, later 1000 s1).
Proof.
  destruct (repeated_calls_reuse_cache env_up "AAPL" (start 0))
    as ((v & e & s1 & E & He & Hv & Hs & H2) & _).
  exists v, s1. split; [exact E |].
  vm_compute in E. injection E as <- <-.
  vm_compute in He. injection He as <-.
  split; [reflexivity |].
  apply H2; reflexivity.
Defined.

(** ** Failed fetches and the cache *)



